(** * TaskManagementSystem: task lifecycle state machine with observers

    A shallow embedding of [TaskManagementSystem.cpp]: the state classes
    ([CreateState], [InProgressState], [CompletedState], [CancelledState]),
    the observers ([EmailTaskObserver], [SMSTaskObserver]), [TaskContext],
    [Task] and the builder [TaskManager], followed by the properties of the
    lifecycle core.

    Conventions.
    - A C++ method of class [K] is a computation [Exec K A]: it takes the
      object, and yields the object after the call, the events the call
      produced, and the returned value.
    - [std::cout << ... << endl] is the event [Stdout line]; a virtual call
      [observer->Update(message)] is recorded as [Notified o message] in front
      of what the observer's body prints.
    - [unique_ptr<T>] and [shared_ptr<T>] are [option T]; [None] is the null
      pointer.  Dereferencing a null pointer is undefined behaviour in C++:
      the computation stops there ([value = None]), keeping the object and the
      events as they were at that point. *)

From Stdlib Require Import ZArith List String Ascii Bool Lia DecimalString.
From Stdlib Require DecimalFacts DecimalPos Nnat.
Import ListNotations.

Local Open Scope string_scope.
Local Open Scope Z_scope.

(* ===================================================================== *)
(** ** Observers *)
(* ===================================================================== *)

(** [struct TaskObserver] with its two implementations; each carries the
    recipient it was constructed with. *)
Inductive TaskObserver : Type :=
| EmailTaskObserver (email : string)
| SMSTaskObserver (phone : string).

Definition shared_ptr (A : Type) : Type := option A.
Definition unique_ptr (A : Type) : Type := option A.

Definition TaskObserver_eq_dec (a b : TaskObserver) : {a = b} + {a <> b}.
Proof. decide equality; apply string_dec. Defined.

(* ===================================================================== *)
(** ** Events and computations *)
(* ===================================================================== *)

Inductive Event : Type :=
| Stdout (line : string)
| Notified (o : TaskObserver) (message : string).

Definition Event_eq_dec (a b : Event) : {a = b} + {a <> b}.
Proof.
  decide equality; try apply string_dec; apply TaskObserver_eq_dec.
Defined.

Record Outcome (S A : Type) : Type := mkOutcome {
  store : S;
  trace : list Event;
  value : option A
}.
Arguments mkOutcome {S A} _ _ _.
Arguments store {S A} _.
Arguments trace {S A} _.
Arguments value {S A} _.

Definition Exec (S A : Type) : Type := S -> Outcome S A.

Definition ret {S A} (a : A) : Exec S A :=
  fun s => mkOutcome s [] (Some a).

Definition bind {S A B} (m : Exec S A) (f : A -> Exec S B) : Exec S B :=
  fun s =>
    let r := m s in
    match value r with
    | Some a =>
        let r' := f a (store r) in
        mkOutcome (store r') (trace r ++ trace r') (value r')
    | None => mkOutcome (store r) (trace r) None
    end.

Definition get {S} : Exec S S :=
  fun s => mkOutcome s [] (Some s).

Definition modify {S} (f : S -> S) : Exec S unit :=
  fun s => mkOutcome (f s) [] (Some tt).

Definition emit {S} (e : Event) : Exec S unit :=
  fun s => mkOutcome s [e] (Some tt).

(** Undefined behaviour: the run stops. *)
Definition undefined {S A} : Exec S A :=
  fun s => mkOutcome s [] None.

(** Runs a method of a member object on that member. *)
Definition on_member {S T A} (proj : S -> T) (upd : T -> S -> S)
           (m : Exec T A) : Exec S A :=
  fun s =>
    let r := m (proj s) in
    mkOutcome (upd (store r) s) (trace r) (value r).

Declare Scope exec_scope.
Delimit Scope exec_scope with exec.
Notation "x <- m ;; k" := (bind m (fun x => k))
  (at level 61, m at next level, right associativity) : exec_scope.
Notation "m ;; k" := (bind m (fun _ => k))
  (at level 61, right associativity) : exec_scope.
Local Open Scope exec_scope.

(** [cout << line << endl] *)
Definition cout_endl {S} (line : string) : Exec S unit := emit (Stdout line).

(** [p->...] on a smart pointer. *)
Definition deref {S A} (p : option A) : Exec S A :=
  match p with
  | Some a => ret a
  | None => undefined
  end.

(** Range-based [for] over a vector. *)
Fixpoint for_each {S A} (l : list A) (body : A -> Exec S unit) : Exec S unit :=
  match l with
  | [] => ret tt
  | x :: rest => body x ;; for_each rest body
  end.

(** [EmailTaskObserver::Update] *)
Definition EmailTaskObserver_Update {S} (email message : string) : Exec S unit :=
  cout_endl ("Email: " ++ email ++ " , message is " ++ message).

(** [SMSTaskObserver::Update] *)
Definition SMSTaskObserver_Update {S} (phone message : string) : Exec S unit :=
  cout_endl ("SMS : " ++ phone ++ " , message is " ++ message).

(** Virtual dispatch of [TaskObserver::Update]. *)
Definition TaskObserver_Update {S} (o : TaskObserver) (message : string)
  : Exec S unit :=
  emit (Notified o message) ;;
  match o with
  | EmailTaskObserver email => EmailTaskObserver_Update email message
  | SMSTaskObserver phone => SMSTaskObserver_Update phone message
  end.

(* ===================================================================== *)
(** ** States and the context *)
(* ===================================================================== *)

(** The implementations of [struct TaskState]. *)
Inductive TaskState : Type :=
| CreateState
| InProgressState
| CompletedState
| CancelledState.

Definition TaskState_eq_dec (a b : TaskState) : {a = b} + {a <> b}.
Proof. decide equality. Defined.

Record TaskContext : Type := mkTaskContext {
  currentTaskState : unique_ptr TaskState;
  taskObservers : list (shared_ptr TaskObserver)
}.

(** [explicit TaskContext(unique_ptr<TaskState> newState)] *)
Definition TaskContext_ctor (newState : unique_ptr TaskState) : TaskContext :=
  mkTaskContext newState [].

Definition TaskContext_setState (newState : unique_ptr TaskState)
  : Exec TaskContext unit :=
  modify (fun c => mkTaskContext newState (taskObservers c)).

Definition TaskContext_addTaskObserver (observer : shared_ptr TaskObserver)
  : Exec TaskContext unit :=
  modify (fun c => mkTaskContext (currentTaskState c)
                                 (taskObservers c ++ [observer])).

Definition TaskContext_notify (message : string) : Exec TaskContext unit :=
  c <- get ;;
  for_each (taskObservers c)
           (fun observer => o <- deref observer ;; TaskObserver_Update o message).

Definition CreateState_handle : Exec TaskContext unit :=
  let message := "Task has been created..." in
  cout_endl message ;;
  TaskContext_notify message.

Definition CreateState_getCurrentState : string := "Created".

Definition InProgressState_handle : Exec TaskContext unit :=
  let message := "Task has been changed to InProgress..." in
  cout_endl message ;;
  TaskContext_notify message.

Definition InProgressState_getCurrentState : string := "InProgress".

Definition CompletedState_handle : Exec TaskContext unit :=
  let message := "Task has been completed..." in
  cout_endl message ;;
  TaskContext_notify message.

Definition CompletedState_getCurrentState : string := "Completed".

Definition CancelledState_handle : Exec TaskContext unit :=
  let message := "Task has been Cancelled..." in
  cout_endl message ;;
  TaskContext_notify message.

Definition CancelledState_getCurrentState : string := "Cancelled".

(** Virtual dispatch of [TaskState::handle] and [TaskState::getCurrentState]. *)
Definition TaskState_handle (s : TaskState) : Exec TaskContext unit :=
  match s with
  | CreateState => CreateState_handle
  | InProgressState => InProgressState_handle
  | CompletedState => CompletedState_handle
  | CancelledState => CancelledState_handle
  end.

Definition TaskState_getCurrentState (s : TaskState) : string :=
  match s with
  | CreateState => CreateState_getCurrentState
  | InProgressState => InProgressState_getCurrentState
  | CompletedState => CompletedState_getCurrentState
  | CancelledState => CancelledState_getCurrentState
  end.

Definition TaskContext_executeState : Exec TaskContext unit :=
  c <- get ;;
  match currentTaskState c with
  | Some s => TaskState_handle s
  | None => ret tt
  end.

Definition TaskContext_getCurrentState : Exec TaskContext string :=
  c <- get ;;
  ret (match currentTaskState c with
       | Some s => TaskState_getCurrentState s
       | None => "Invalid State"
       end).

(* ===================================================================== *)
(** ** Integers and dates as text *)
(* ===================================================================== *)

(** [cout << n] for an integer: decimal digits, with [-] in front of a
    negative number. *)
Definition dec (n : Z) : string := NilZero.string_of_int (Z.to_int n).

(** The fields of [struct tm] that ["%Y-%m-%d"] reads. *)
Record tm : Type := mkTm {
  tm_year : Z;   (* years since 1900 *)
  tm_mon : Z;    (* months since January, 0..11 *)
  tm_mday : Z    (* day of the month, 1..31 *)
}.

(** Proleptic Gregorian date (year, month 1..12, day 1..31) of the day
    [doe] (0..146096) of the 400-year era [era]; eras start on 1 March of
    the years divisible by 400. *)
Definition civil_of_era_day (era doe : Z) : Z * Z * Z :=
  let yoe := (doe - doe / 1460 + doe / 36524 - doe / 146096) / 365 in
  let doy := doe - (365 * yoe + yoe / 4 - yoe / 100) in
  let mp := (5 * doy + 2) / 153 in
  let d := doy - (153 * mp + 2) / 5 + 1 in
  let m := if mp <? 10 then mp + 3 else mp - 9 in
  let y := yoe + era * 400 + (if m <=? 2 then 1 else 0) in
  (y, m, d).

(** The date of a day number counted from 1970-01-01. *)
Definition civil_from_days (days : Z) : Z * Z * Z :=
  let z := days + 719468 in
  let era := z / 146097 in
  civil_of_era_day era (z - era * 146097).

Definition INT_MIN : Z := - 2147483648.
Definition INT_MAX : Z := 2147483647.

(** The C library's conversion of a [time_t] to local calendar time, as
    ISO C and POSIX describe it (the source calls [localtime_s] and notes
    [localtime_r] for Linux; the return code is not looked at).
    [utc_offset t] is the local zone's offset from UTC, in seconds, at the
    instant [t].  The conversion fails when the year does not fit
    [int tm_year]; the [struct tm] is then left unset. *)
Definition localtime (utc_offset : Z -> Z) (t : Z) : option tm :=
  let '(y, m, d) := civil_from_days ((t + utc_offset t) / 86400) in
  if (INT_MIN <=? y - 1900) && (y - 1900 <=? INT_MAX)
  then Some (mkTm (y - 1900) (m - 1) d)
  else None.

(** Two decimal digits, zero-padded ([%m], [%d]). *)
Definition dec2 (n : Z) : string :=
  if (0 <=? n) && (n <? 10) then "0" ++ dec n else dec n.

(** [strftime(buf, maxsize, "%Y-%m-%d", &t)]: [%Y] is the year as a decimal
    number, [%m] and [%d] the month and the day as two digits; nothing is
    written when the text does not fit [maxsize] characters with its
    terminator. *)
Definition strftime_Ymd (maxsize : Z) (t : tm) : option string :=
  let s := dec (tm_year t + 1900) ++ "-" ++ dec2 (tm_mon t + 1)
           ++ "-" ++ dec2 (tm_mday t) in
  if Z.of_nat (String.length s) + 1 <=? maxsize then Some s else None.

(* ===================================================================== *)
(** ** Task *)
(* ===================================================================== *)

(** [enum TaskPriority { HIGH = 0, MEDIUM, LOW }] *)
Definition TaskPriority : Type := Z.
Definition HIGH : TaskPriority := 0.
Definition MEDIUM : TaskPriority := 1.
Definition LOW : TaskPriority := 2.

Record Task : Type := mkTask {
  Id : Z;
  taskTitle : string;
  taskDescription : string;
  startDate : Z;
  endDate : Z;
  taskPriority : TaskPriority;
  taskContext : TaskContext
}.

Definition set_taskTitle (v : string) (t : Task) : Task :=
  mkTask (Id t) v (taskDescription t) (startDate t) (endDate t)
         (taskPriority t) (taskContext t).
Definition set_taskDescription (v : string) (t : Task) : Task :=
  mkTask (Id t) (taskTitle t) v (startDate t) (endDate t)
         (taskPriority t) (taskContext t).
Definition set_startDate (v : Z) (t : Task) : Task :=
  mkTask (Id t) (taskTitle t) (taskDescription t) v (endDate t)
         (taskPriority t) (taskContext t).
Definition set_endDate (v : Z) (t : Task) : Task :=
  mkTask (Id t) (taskTitle t) (taskDescription t) (startDate t) v
         (taskPriority t) (taskContext t).
Definition set_taskPriority (v : TaskPriority) (t : Task) : Task :=
  mkTask (Id t) (taskTitle t) (taskDescription t) (startDate t) (endDate t)
         v (taskContext t).
Definition set_taskContext (v : TaskContext) (t : Task) : Task :=
  mkTask (Id t) (taskTitle t) (taskDescription t) (startDate t) (endDate t)
         (taskPriority t) v.

(** A call on the member [taskContext]. *)
Definition on_taskContext {A} (m : Exec TaskContext A) : Exec Task A :=
  on_member taskContext set_taskContext m.

(** [Task::Task(int id, string title, TaskPriority priority)]; [now] is what
    [std::time(nullptr)] returns. *)
Definition Task_ctor (now : Z) (id : Z) (title : string)
           (priority : TaskPriority) : Outcome Task unit :=
  on_taskContext TaskContext_executeState
    (mkTask id title "" now (now + 2 * 24 * 60 * 60) priority
            (TaskContext_ctor (Some CreateState))).

Definition Task_setTitle (title : string) : Exec Task unit :=
  modify (set_taskTitle title).

Definition Task_setDescription (desc : string) : Exec Task unit :=
  modify (set_taskDescription desc).

Definition Task_setStartDate (startDate : Z) : Exec Task unit :=
  modify (set_startDate startDate).

Definition Task_setEndDate (endDate : Z) : Exec Task unit :=
  modify (set_endDate endDate).

Definition Task_setTaskPriority (priority : TaskPriority) : Exec Task unit :=
  modify (set_taskPriority priority).

Definition Task_addTaskObserver (observer : shared_ptr TaskObserver)
  : Exec Task unit :=
  on_taskContext (TaskContext_addTaskObserver observer).

Definition Task_changeState (newState : unique_ptr TaskState) : Exec Task unit :=
  on_taskContext (TaskContext_setState newState) ;;
  on_taskContext TaskContext_executeState.

Definition Task_getCurrentTaskPriorityInString : Exec Task string :=
  t <- get ;;
  if taskPriority t =? HIGH then ret "High"
  else if taskPriority t =? MEDIUM then ret "Medium"
  else if taskPriority t =? LOW then ret "Low"
  else ret "Invalid".

(** The result of an ignored library call whose failure leaves the output
    buffer unset: reading the buffer afterwards is undefined. *)
Definition filled {S A} (r : option A) : Exec S A := deref r.

Section Environment.

(** The local time zone of the process. *)
Variable utc_offset : Z -> Z.

(** What a moved-from [std::string] holds: valid but unspecified. *)
Variable moved_from_string : string -> string.

Definition Task_print : Exec Task unit :=
  t <- get ;;
  startDt <- filled (localtime utc_offset (startDate t)) ;;
  endDt <- filled (localtime utc_offset (endDate t)) ;;
  startDateStr <- filled (strftime_Ymd 20 startDt) ;;
  endDateStr <- filled (strftime_Ymd 20 endDt) ;;
  cout_endl "Task Details" ;;
  priority <- Task_getCurrentTaskPriorityInString ;;
  cout_endl ("Id: " ++ dec (Id t) ++ ", Priority: " ++ priority) ;;
  cout_endl ("Title: " ++ taskTitle t) ;;
  cout_endl ("Description: " ++ taskDescription t) ;;
  cout_endl ("Start Date: " ++ startDateStr ++ ", End Date: " ++ endDateStr) ;;
  state <- on_taskContext TaskContext_getCurrentState ;;
  cout_endl ("Task Status: " ++ state).

(** The implicit move constructors of [TaskContext] and [Task]: the new
    object takes the members; the source object keeps its scalars, a null
    [unique_ptr], an empty [vector] and unspecified strings. *)
Definition TaskContext_moved_from (c : TaskContext) : TaskContext :=
  mkTaskContext None [].

Definition Task_moved_from (t : Task) : Task :=
  mkTask (Id t) (moved_from_string (taskTitle t))
         (moved_from_string (taskDescription t))
         (startDate t) (endDate t) (taskPriority t)
         (TaskContext_moved_from (taskContext t)).

(* =================================================================== *)
(** ** TaskManager, the builder *)
(* =================================================================== *)

Record TaskManager : Type := mkTaskManager { task : Task }.

Definition set_task (v : Task) (b : TaskManager) : TaskManager :=
  mkTaskManager v.

Definition on_task {A} (m : Exec Task A) : Exec TaskManager A :=
  on_member task set_task m.

Definition TaskManager_ctor (now : Z) (id : Z) (title : string)
           (priority : TaskPriority) : Outcome TaskManager unit :=
  let r := Task_ctor now id title priority in
  mkOutcome (mkTaskManager (store r)) (trace r) (value r).

Definition TaskManager_setDescription (description : string)
  : Exec TaskManager unit :=
  on_task (modify (set_taskDescription description)).

Definition TaskManager_setPriority (taskPriority : TaskPriority)
  : Exec TaskManager unit :=
  on_task (modify (set_taskPriority taskPriority)).

Definition TaskManager_setStartDate (startDate : Z) : Exec TaskManager unit :=
  on_task (modify (set_startDate startDate)).

Definition TaskManager_setEndDate (endDate : Z) : Exec TaskManager unit :=
  on_task (modify (set_endDate endDate)).

Definition TaskManager_addTaskObserver (observer : shared_ptr TaskObserver)
  : Exec TaskManager unit :=
  on_task (Task_addTaskObserver observer).

(** [Task build() { return std::move(task); }] *)
Definition TaskManager_build : Exec TaskManager Task :=
  b <- get ;;
  modify (fun b => mkTaskManager (Task_moved_from (task b))) ;;
  ret (task b).

End Environment.

(* ===================================================================== *)
(** ** Client calls *)
(* ===================================================================== *)

(** The public operations of each class, as data, so that statements can
    range over every call and every sequence of calls a client can make. *)

Inductive ContextCall : Type :=
| CtxSetState (newState : unique_ptr TaskState)
| CtxAddTaskObserver (observer : shared_ptr TaskObserver)
| CtxNotify (message : string)
| CtxExecuteState
| CtxGetCurrentState.

Definition ContextCall_run (call : ContextCall) : Exec TaskContext unit :=
  match call with
  | CtxSetState newState => TaskContext_setState newState
  | CtxAddTaskObserver observer => TaskContext_addTaskObserver observer
  | CtxNotify message => TaskContext_notify message
  | CtxExecuteState => TaskContext_executeState
  | CtxGetCurrentState => _ <- TaskContext_getCurrentState ;; ret tt
  end.

Inductive TaskCall : Type :=
| CallSetTitle (title : string)
| CallSetDescription (desc : string)
| CallSetStartDate (startDate : Z)
| CallSetEndDate (endDate : Z)
| CallSetTaskPriority (priority : TaskPriority)
| CallAddTaskObserver (observer : shared_ptr TaskObserver)
| CallChangeState (newState : unique_ptr TaskState)
| CallGetCurrentTaskPriorityInString
| CallPrint.

Definition TaskCall_run (utc_offset : Z -> Z) (call : TaskCall)
  : Exec Task unit :=
  match call with
  | CallSetTitle title => Task_setTitle title
  | CallSetDescription desc => Task_setDescription desc
  | CallSetStartDate d => Task_setStartDate d
  | CallSetEndDate d => Task_setEndDate d
  | CallSetTaskPriority priority => Task_setTaskPriority priority
  | CallAddTaskObserver observer => Task_addTaskObserver observer
  | CallChangeState newState => Task_changeState newState
  | CallGetCurrentTaskPriorityInString =>
      _ <- Task_getCurrentTaskPriorityInString ;; ret tt
  | CallPrint => Task_print utc_offset
  end.

Inductive BuilderCall : Type :=
| BuilderSetDescription (description : string)
| BuilderSetPriority (taskPriority : TaskPriority)
| BuilderSetStartDate (startDate : Z)
| BuilderSetEndDate (endDate : Z)
| BuilderAddTaskObserver (observer : shared_ptr TaskObserver).

Definition BuilderCall_run (call : BuilderCall) : Exec TaskManager unit :=
  match call with
  | BuilderSetDescription description => TaskManager_setDescription description
  | BuilderSetPriority p => TaskManager_setPriority p
  | BuilderSetStartDate d => TaskManager_setStartDate d
  | BuilderSetEndDate d => TaskManager_setEndDate d
  | BuilderAddTaskObserver observer => TaskManager_addTaskObserver observer
  end.

Definition is_changeState (call : TaskCall) : bool :=
  match call with
  | CallChangeState _ => true
  | _ => false
  end.

(** The sinks a call registers. *)
Definition ContextCall_registers (call : ContextCall)
  : list (shared_ptr TaskObserver) :=
  match call with
  | CtxAddTaskObserver observer => [observer]
  | _ => []
  end.

Definition TaskCall_registers (call : TaskCall)
  : list (shared_ptr TaskObserver) :=
  match call with
  | CallAddTaskObserver observer => [observer]
  | _ => []
  end.

Definition BuilderCall_registers (call : BuilderCall)
  : list (shared_ptr TaskObserver) :=
  match call with
  | BuilderAddTaskObserver observer => [observer]
  | _ => []
  end.

(** Continues a run that has already produced an outcome. *)
Definition and_then {S A B} (r : Outcome S A) (f : A -> Exec S B)
  : Outcome S B :=
  bind (fun _ => r) f (store r).

(* ===================================================================== *)
(** ** The program *)
(* ===================================================================== *)

(** The builder expression that initialises [t1] in [main]. *)
Definition main_built (moved_from_string : string -> string) (now : Z)
  : Outcome TaskManager Task :=
  and_then (TaskManager_ctor now 1001 "C++ Dev Task" LOW)
    (fun _ =>
       TaskManager_setDescription "This is C++ Dev Task for the LinkedIn" ;;
       TaskManager_addTaskObserver
         (Some (EmailTaskObserver "jhon.d@gmail.com")) ;;
       TaskManager_addTaskObserver
         (Some (EmailTaskObserver "martha.p@gmail.com")) ;;
       TaskManager_addTaskObserver
         (Some (SMSTaskObserver "+1-(234)-(435)-1122")) ;;
       TaskManager_addTaskObserver
         (Some (SMSTaskObserver "+91-(982)-(432)-3878")) ;;
       TaskManager_build moved_from_string).

(** The statements of [main] on [t1]. *)
Definition main_on_t1 (utc_offset : Z -> Z) : Exec Task unit :=
  Task_print utc_offset ;;
  cout_endl "" ;;
  Task_setTaskPriority HIGH ;;
  Task_print utc_offset ;;
  cout_endl "" ;;
  Task_changeState (Some InProgressState) ;;
  cout_endl "" ;;
  Task_changeState (Some CompletedState).

(** The events of a run of [main]. *)
Definition main (utc_offset : Z -> Z) (moved_from_string : string -> string)
           (now : Z) : list Event :=
  let b := main_built moved_from_string now in
  (trace b
   ++ match value b with
      | Some t1 => trace (main_on_t1 utc_offset t1)
      | None => []
      end)%list.

(* ===================================================================== *)
(** ** Reading traces *)
(* ===================================================================== *)

(** The deliveries in a trace: which observer was handed which message. *)
Fixpoint notifications (tr : list Event) : list (TaskObserver * string) :=
  match tr with
  | [] => []
  | Notified o message :: rest => (o, message) :: notifications rest
  | Stdout _ :: rest => notifications rest
  end.

(** The lines written to standard output. *)
Fixpoint stdout (tr : list Event) : list string :=
  match tr with
  | [] => []
  | Stdout line :: rest => line :: stdout rest
  | Notified _ _ :: rest => stdout rest
  end.

(** The events of one [Update] call. *)
Definition update_events (o : TaskObserver) (message : string) : list Event :=
  trace (TaskObserver_Update o message tt).

(** The sinks a broadcast reaches: those in front of the first null one. *)
Fixpoint sinks_before_null (l : list (shared_ptr TaskObserver))
  : list TaskObserver :=
  match l with
  | Some o :: rest => o :: sinks_before_null rest
  | _ => []
  end.

Definition is_null {A} (p : option A) : bool :=
  match p with Some _ => false | None => true end.

Definition has_null {A} (l : list (option A)) : bool := existsb is_null l.

(** A Task as the source's [main] sets one up, with two of its sinks,
    registered after construction. *)
Definition two_sink_task : Task :=
  store (for_each [EmailTaskObserver "jhon.d@gmail.com";
                   SMSTaskObserver "+1-(234)-(435)-1122"]
                  (fun o => Task_addTaskObserver (Some o))
                  (store (Task_ctor 1700000000 1001 "C++ Dev Task" LOW))).

(** The entry-action text of each state variant. *)
Definition entry_action_text (s : TaskState) : string :=
  match s with
  | CreateState => "Task has been created..."
  | InProgressState => "Task has been changed to InProgress..."
  | CompletedState => "Task has been completed..."
  | CancelledState => "Task has been Cancelled..."
  end.

(** How many times [o] was handed [message]. *)
Definition times_notified (o : TaskObserver) (message : string)
           (tr : list Event) : nat :=
  count_occ Event_eq_dec tr (Notified o message).


Definition is_digit (c : ascii) : bool :=
  let n := nat_of_ascii c in (48 <=? n)%nat && (n <=? 57)%nat.

(** Exactly four digits, a hyphen, two digits, a hyphen, two digits. *)
Definition is_YYYY_MM_DD (s : string) : bool :=
  match list_ascii_of_string s with
  | [y1; y2; y3; y4; h1; m1; m2; h2; d1; d2] =>
      is_digit y1 && is_digit y2 && is_digit y3 && is_digit y4
      && Ascii.eqb h1 "-" && is_digit m1 && is_digit m2
      && Ascii.eqb h2 "-" && is_digit d1 && is_digit d2
  | _ => false
  end.

(* ===================================================================== *)
(** ** Vocabulary of the statements *)
(* ===================================================================== *)

(** The events of a broadcast of [message] over the registry [l]. *)
Definition broadcast_events (message : string)
           (l : list (shared_ptr TaskObserver)) : list Event :=
  flat_map (fun o => update_events o message) (sinks_before_null l).

Definition broadcast_value (l : list (shared_ptr TaskObserver)) : option unit :=
  if has_null l then None else Some tt.

(** The events and the returned value of running the entry action of the
    state [p] points to, over the registry [l]. *)
Definition entry_events (p : unique_ptr TaskState)
           (l : list (shared_ptr TaskObserver)) : list Event :=
  match p with
  | Some s => Stdout (entry_action_text s)
              :: broadcast_events (entry_action_text s) l
  | None => []
  end.

Definition entry_value (p : unique_ptr TaskState)
           (l : list (shared_ptr TaskObserver)) : option unit :=
  match p with
  | Some _ => broadcast_value l
  | None => Some tt
  end.

(** An outcome with one more event in front. *)
Definition after_event {S A} (e : Event) (r : Outcome S A) : Outcome S A :=
  mkOutcome (store r) (e :: trace r) (value r).

(** The registry of a Task and of a builder's Task. *)
Definition registry (t : Task) : list (shared_ptr TaskObserver) :=
  taskObservers (taskContext t).

Definition state_of (t : Task) : unique_ptr TaskState :=
  currentTaskState (taskContext t).

Definition builder_after (now id : Z) (title : string)
           (priority : TaskPriority) (calls : list BuilderCall)
  : Outcome TaskManager unit :=
  and_then (TaskManager_ctor now id title priority)
           (fun _ => for_each calls BuilderCall_run).

Definition built (moved_from_string : string -> string) (now id : Z)
           (title : string) (priority : TaskPriority)
           (calls : list BuilderCall) : Outcome TaskManager Task :=
  and_then (builder_after now id title priority calls)
           (fun _ => TaskManager_build moved_from_string).

(** The builder after [n] successive [build()] calls. *)
Fixpoint after_builds (moved_from_string : string -> string) (n : nat)
         (b : TaskManager) : TaskManager :=
  match n with
  | O => b
  | S k => store (TaskManager_build moved_from_string
                    (after_builds moved_from_string k b))
  end.

(** Coordinated Universal Time as the local zone. *)
Definition utc (_ : Z) : Z := 0.





(** The lines [print] writes once both dates are rendered. *)
Definition print_lines (t : Task) (priority startDateStr endDateStr state : string)
  : list string :=
  [ "Task Details";
    "Id: " ++ dec (Id t) ++ ", Priority: " ++ priority;
    "Title: " ++ taskTitle t;
    "Description: " ++ taskDescription t;
    "Start Date: " ++ startDateStr ++ ", End Date: " ++ endDateStr;
    "Task Status: " ++ state ].

(** The rendered dates of a Task, when both conversions succeed. *)
Definition rendered_dates (utc_offset : Z -> Z) (t : Task)
  : option (string * string) :=
  match localtime utc_offset (startDate t),
        localtime utc_offset (endDate t) with
  | Some startDt, Some endDt =>
      match strftime_Ymd 20 startDt, strftime_Ymd 20 endDt with
      | Some s, Some e => Some (s, e)
      | _, _ => None
      end
  | _, _ => None
  end.

(** The local calendar year of [t] has four digits. *)
Definition four_digit_year (utc_offset : Z -> Z) (t : Z) : bool :=
  match localtime utc_offset t with
  | Some d => (1000 <=? tm_year d + 1900) && (tm_year d + 1900 <=? 9999)
  | None => false
  end.

Definition all_digits (s : string) : bool :=
  forallb is_digit (list_ascii_of_string s).

Definition digits_of_length (n : nat) (s : string) : bool :=
  (String.length s =? n)%nat && all_digits s.

(** [f] holds of the [n] integers from [z] on. *)
Fixpoint all_from (f : Z -> bool) (n : nat) (z : Z) : bool :=
  match n with
  | O => true
  | S k => f z && all_from f k (z + 1)
  end.

Definition month_day_in_range (doe : Z) : bool :=
  let '(_, m, d) := civil_of_era_day 0 doe in
  (1 <=? m) && (m <=? 12) && (1 <=? d) && (d <=? 31).

(** What a client can do with a builder: one of its calls, or [build()]
    (whose result the client keeps or drops). *)
Inductive BuilderStep : Type :=
| StepCall (call : BuilderCall)
| StepBuild.

Definition BuilderStep_run (moved_from_string : string -> string)
           (step : BuilderStep) : Exec TaskManager unit :=
  match step with
  | StepCall call => BuilderCall_run call
  | StepBuild => _ <- TaskManager_build moved_from_string ;; ret tt
  end.

(** The sinks registered on the builder since its last [build()], after
    [steps], when [since] were registered before them. *)
Fixpoint registered_since_build (steps : list BuilderStep)
         (since : list (shared_ptr TaskObserver))
  : list (shared_ptr TaskObserver) :=
  match steps with
  | [] => since
  | StepCall call :: rest =>
      registered_since_build rest (since ++ BuilderCall_registers call)
  | StepBuild :: rest => registered_since_build rest []
  end.

(* ===================================================================== *)
(** ** Vocabulary of the further properties *)
(* ===================================================================== *)



(** The line an observer prints for a message. *)
Definition delivery_line (o : TaskObserver) (message : string) : string :=
  match o with
  | EmailTaskObserver email => "Email: " ++ email ++ " , message is " ++ message
  | SMSTaskObserver phone => "SMS : " ++ phone ++ " , message is " ++ message
  end.

(** The value a builder field holds after [calls], starting from [v]. *)
Fixpoint last_description (calls : list BuilderCall) (v : string) : string :=
  match calls with
  | [] => v
  | BuilderSetDescription d :: rest => last_description rest d
  | _ :: rest => last_description rest v
  end.

Fixpoint last_priority (calls : list BuilderCall) (v : TaskPriority)
  : TaskPriority :=
  match calls with
  | [] => v
  | BuilderSetPriority p :: rest => last_priority rest p
  | _ :: rest => last_priority rest v
  end.

Fixpoint last_startDate (calls : list BuilderCall) (v : Z) : Z :=
  match calls with
  | [] => v
  | BuilderSetStartDate d :: rest => last_startDate rest d
  | _ :: rest => last_startDate rest v
  end.

Fixpoint last_endDate (calls : list BuilderCall) (v : Z) : Z :=
  match calls with
  | [] => v
  | BuilderSetEndDate d :: rest => last_endDate rest d
  | _ :: rest => last_endDate rest v
  end.

(** The call on a Task that does what the builder call does. *)
Definition BuilderCall_on_Task (call : BuilderCall) : TaskCall :=
  match call with
  | BuilderSetDescription d => CallSetDescription d
  | BuilderSetPriority p => CallSetTaskPriority p
  | BuilderSetStartDate d => CallSetStartDate d
  | BuilderSetEndDate d => CallSetEndDate d
  | BuilderAddTaskObserver o => CallAddTaskObserver o
  end.

(** The state a sequence of transitions ends in. *)
Definition final_state (states : list TaskState) (p : unique_ptr TaskState)
  : unique_ptr TaskState :=
  last (map Some states) p.

(** The sinks [main] registers, in its order. *)
Definition main_sinks : list TaskObserver :=
  [ EmailTaskObserver "jhon.d@gmail.com";
    EmailTaskObserver "martha.p@gmail.com";
    SMSTaskObserver "+1-(234)-(435)-1122";
    SMSTaskObserver "+91-(982)-(432)-3878" ].

(** The lines of [print] on the Task of [main], for a priority label and
    two rendered dates. *)
Definition main_details (priority s e : string) : list string :=
  [ "Task Details";
    "Id: 1001, Priority: " ++ priority;
    "Title: C++ Dev Task";
    "Description: This is C++ Dev Task for the LinkedIn";
    "Start Date: " ++ s ++ ", End Date: " ++ e;
    "Task Status: Created" ].

(* ===================================================================== *)
(** ** NotifictionSystem.cpp: the monitoring demo *)
(* ===================================================================== *)

Module NotificationSystem.

(** The implementations of [INotification]. *)
Inductive INotification : Type :=
| EmailNotification
| SMSNotification.

(** [EmailNotification::send] *)
Definition EmailNotification_send {S} (message : string) : Exec S unit :=
  cout_endl ("Email notification! " ++ message).

(** [SMSNotification::send] *)
Definition SMSNotification_send {S} (message : string) : Exec S unit :=
  cout_endl ("SMS notification! " ++ message).

(** Virtual dispatch of [INotification::send]. *)
Definition INotification_send {S} (n : INotification) (message : string)
  : Exec S unit :=
  match n with
  | EmailNotification => EmailNotification_send message
  | SMSNotification => SMSNotification_send message
  end.

(** [enum NotificationType { EMAIL = 0, SMS }] *)
Definition NotificationType : Type := Z.
Definition EMAIL : NotificationType := 0.
Definition SMS : NotificationType := 1.

(** [NotificationFactory::CreateNotification] *)
Definition CreateNotification (notificationType : NotificationType)
  : shared_ptr INotification :=
  if notificationType =? EMAIL then Some EmailNotification
  else if notificationType =? SMS then Some SMSNotification
  else None.

(** [EventManager], with the [observers] of [IEventListener]. *)
Record EventManager : Type := mkEventManager {
  observers : list (shared_ptr INotification)
}.

Definition EventManager_ctor : EventManager := mkEventManager [].

Definition subscribe (observer : shared_ptr INotification)
  : Exec EventManager unit :=
  modify (fun m => mkEventManager (observers m ++ [observer])).

Definition notify (message : string) : Exec EventManager unit :=
  m <- get ;;
  for_each (observers m)
           (fun observer => n <- deref observer ;;
                            INotification_send n message).

(** [Metrics]: [rand_value] is what the call of [rand()] returns, an [int]
    from 0 to [RAND_MAX]; [%] truncates. *)
Definition getCPUUsage (rand_value : Z) : Z := Z.rem rand_value 100.

Definition getMemoryUsage (rand_value : Z) : Z := Z.rem rand_value 100.

(** [MonitoringSystem].  [eventManager] is the manager the shared pointer
    points to, or nothing for a null pointer; [monitor] only reads it. *)
Record MonitoringSystem : Type := mkMonitoringSystem {
  eventManager : shared_ptr EventManager;
  cpuThreshold : Z;
  memThreshold : Z
}.

(** [eventManager->...] *)
Definition on_eventManager {A} (m : Exec EventManager A)
  : Exec MonitoringSystem A :=
  fun ms =>
    match eventManager ms with
    | Some mgr =>
        let r := m mgr in
        mkOutcome (mkMonitoringSystem (Some (store r)) (cpuThreshold ms)
                                      (memThreshold ms))
                  (trace r) (value r)
    | None => mkOutcome ms [] None
    end.

(** One iteration of the loop of [MonitoringSystem::monitor]; [cpu_rand] and
    [mem_rand] are what its two calls of [rand()] return.  The pause at the
    end of the iteration is not modelled. *)
Definition monitor_iteration (cpu_rand mem_rand : Z)
  : Exec MonitoringSystem unit :=
  ms <- get ;;
  let cpuUsage := getCPUUsage cpu_rand in
  let memUsage := getMemoryUsage mem_rand in
  (if cpuUsage >? cpuThreshold ms
   then let message := "CPU Usage Alert! CPU Usage: " ++ dec cpuUsage ++ "%" in
        on_eventManager (notify message)
   else ret tt) ;;
  (if memUsage >? memThreshold ms
   then let message :=
          "Memory Usage Alert! Memory Usage: " ++ dec memUsage ++ "%" in
        on_eventManager (notify message)
   else ret tt).

(** The first iterations of [while (true)] in [monitor], one per pair of
    [rand()] results. *)
Definition monitor (rands : list (Z * Z)) : Exec MonitoringSystem unit :=
  for_each rands (fun r => monitor_iteration (fst r) (snd r)).

(** The sinks in front of the first null one. *)
Fixpoint before_null {A} (l : list (option A)) : list A :=
  match l with
  | Some a :: rest => a :: before_null rest
  | _ => []
  end.

(** The line a notification prints for a message. *)
Definition send_line (n : INotification) (message : string) : string :=
  match n with
  | EmailNotification => "Email notification! " ++ message
  | SMSNotification => "SMS notification! " ++ message
  end.

(** The manager after subscribing what the factory makes for [types]. *)
Definition subscribed (types : list NotificationType) : EventManager :=
  store (for_each types (fun k => subscribe (CreateNotification k))
                  EventManager_ctor).

(** The alerts of one iteration. *)
Definition cpu_alert (ms : MonitoringSystem) (cpu_rand : Z) : bool :=
  getCPUUsage cpu_rand >? cpuThreshold ms.

Definition mem_alert (ms : MonitoringSystem) (mem_rand : Z) : bool :=
  getMemoryUsage mem_rand >? memThreshold ms.

Definition alerts_of (ms : MonitoringSystem) (r : Z * Z) : list string :=
  List.app
    (if cpu_alert ms (fst r)
     then ["CPU Usage Alert! CPU Usage: " ++ dec (getCPUUsage (fst r)) ++ "%"]
     else [])
    (if mem_alert ms (snd r)
     then ["Memory Usage Alert! Memory Usage: "
           ++ dec (getMemoryUsage (snd r)) ++ "%"]
     else []).

End NotificationSystem.

(* ===================================================================== *)
(** ** OnlineShoppingCart.cpp: the item decorators *)
(* ===================================================================== *)

Module OnlineShoppingCart.

Section Doubles.

(** The type [double] with its addition, the literals [2.0] and [5.0], and
    [std::to_string(double)]; nothing is assumed about them. *)
Variable double : Type.
Variable fadd : double -> double -> double.
Variable two five : double.
Variable to_string : double -> string.

(** The implementations of [IItem].  A getter that dereferences a null
    [baseItem] has no value. *)
Inductive IItem : Type :=
| Books (bookId : Z) (bookTitle : string) (bookPrice : double)
        (bookAuthor bookISBN : string)
| Electronics (itemId : Z) (itemName : string) (itemPrice : double)
              (manufacturer : string)
| ItemDecorator (baseItem : shared_ptr IItem)
| GiftWrapperDecorator (baseItem : shared_ptr IItem)
| ExpressDeliveryDecorator (baseItem : shared_ptr IItem).

(** The two characters that end a description line in the source. *)
Definition line_end : string :=
  String (ascii_of_nat 10) (String (ascii_of_nat 13) EmptyString).

Fixpoint getId (item : IItem) : option Z :=
  match item with
  | Books bookId _ _ _ _ => Some bookId
  | Electronics itemId _ _ _ => Some itemId
  | ItemDecorator baseItem
  | GiftWrapperDecorator baseItem
  | ExpressDeliveryDecorator baseItem =>
      match baseItem with
      | Some base => getId base
      | None => None
      end
  end.

Fixpoint getTitle (item : IItem) : option string :=
  match item with
  | Books _ bookTitle _ _ _ => Some bookTitle
  | Electronics _ itemName _ _ => Some itemName
  | ItemDecorator baseItem
  | GiftWrapperDecorator baseItem
  | ExpressDeliveryDecorator baseItem =>
      match baseItem with
      | Some base => getTitle base
      | None => None
      end
  end.

Fixpoint getPrice (item : IItem) : option double :=
  match item with
  | Books _ _ bookPrice _ _ => Some bookPrice
  | Electronics _ _ itemPrice _ => Some itemPrice
  | ItemDecorator baseItem =>
      match baseItem with
      | Some base => getPrice base
      | None => None
      end
  | GiftWrapperDecorator baseItem =>
      match baseItem with
      | Some base => option_map (fun p => fadd p two) (getPrice base)
      | None => None
      end
  | ExpressDeliveryDecorator baseItem =>
      match baseItem with
      | Some base => option_map (fun p => fadd p five) (getPrice base)
      | None => None
      end
  end.

Fixpoint getDescription (item : IItem) : option string :=
  match item with
  | Books _ bookTitle bookPrice _ _ =>
      Some ("Book Name: " ++ bookTitle ++ " Price: $"
            ++ to_string bookPrice ++ line_end)
  | Electronics _ itemName itemPrice _ =>
      Some ("Item Name: " ++ itemName ++ " Price: $"
            ++ to_string itemPrice ++ line_end)
  | ItemDecorator baseItem =>
      match baseItem with
      | Some base => getDescription base
      | None => None
      end
  | GiftWrapperDecorator baseItem =>
      match baseItem with
      | Some base =>
          option_map
            (fun d => d ++ " Selected Gift Wrapped: Additional Cost: $2.0"
                        ++ line_end)
            (getDescription base)
      | None => None
      end
  | ExpressDeliveryDecorator baseItem =>
      match baseItem with
      | Some base =>
          option_map
            (fun d => d ++ " Selected Express Delivery: Additional Cost: $5.0"
                        ++ line_end)
            (getDescription base)
      | None => None
      end
  end.

(** The decorator classes. *)
Inductive Decoration : Type :=
| Plain
| GiftWrapped
| ExpressDelivery.

(** [make_shared<...Decorator>(item)] *)
Definition decorate (d : Decoration) (item : shared_ptr IItem) : IItem :=
  match d with
  | Plain => ItemDecorator item
  | GiftWrapped => GiftWrapperDecorator item
  | ExpressDelivery => ExpressDeliveryDecorator item
  end.

(** Decorating an item several times, the first decoration innermost. *)
Fixpoint decorate_all (ds : list Decoration) (item : IItem) : IItem :=
  match ds with
  | [] => item
  | d :: rest => decorate_all rest (decorate d (Some item))
  end.

(** What one decoration adds to a price and to a description. *)
Definition priced (p : double) (d : Decoration) : double :=
  match d with
  | Plain => p
  | GiftWrapped => fadd p two
  | ExpressDelivery => fadd p five
  end.

Definition described (d : Decoration) : string :=
  match d with
  | Plain => ""
  | GiftWrapped =>
      " Selected Gift Wrapped: Additional Cost: $2.0" ++ line_end
  | ExpressDelivery =>
      " Selected Express Delivery: Additional Cost: $5.0" ++ line_end
  end.

(** What a list of decorations adds to a description, in order. *)
Fixpoint all_described (ds : list Decoration) : string :=
  match ds with
  | [] => ""
  | d :: rest => described d ++ all_described rest
  end.

End Doubles.

End OnlineShoppingCart.

(* ===================================================================== *)
(** ** What each operation does *)
(* ===================================================================== *)

Lemma TaskObserver_Update_run {S} (o : TaskObserver) (message : string) (s : S) :
  TaskObserver_Update o message s
  = mkOutcome s (update_events o message) (Some tt).
Proof. destruct o; reflexivity. Qed.

Lemma notifications_app (a b : list Event) :
  notifications (a ++ b) = (notifications a ++ notifications b)%list.
Proof.
  induction a as [|e a IH]; simpl; [reflexivity|].
  destruct e; simpl; now rewrite IH.
Qed.

Lemma stdout_app (a b : list Event) :
  stdout (a ++ b) = (stdout a ++ stdout b)%list.
Proof.
  induction a as [|e a IH]; simpl; [reflexivity|].
  destruct e; simpl; now rewrite IH.
Qed.

Lemma notifications_update_events (o : TaskObserver) (message : string) :
  notifications (update_events o message) = [(o, message)].
Proof. destruct o; reflexivity. Qed.

Lemma notifications_broadcast_events (message : string)
      (l : list (shared_ptr TaskObserver)) :
  notifications (broadcast_events message l)
  = map (fun o => (o, message)) (sinks_before_null l).
Proof.
  unfold broadcast_events.
  induction (sinks_before_null l) as [|o os IH]; cbn [flat_map map];
    [reflexivity|].
  now rewrite notifications_app, notifications_update_events, IH.
Qed.

Lemma for_each_Update_run {S} (message : string)
      (l : list (shared_ptr TaskObserver)) (s : S) :
  for_each l (fun observer => o <- deref observer ;;
                              TaskObserver_Update o message) s
  = mkOutcome s (broadcast_events message l) (broadcast_value l).
Proof.
  induction l as [|p l IH]; [reflexivity|].
  destruct p as [o|]; [|reflexivity].
  cbn [for_each]. unfold bind at 1.
  assert (E : (o0 <- deref (Some o) ;; TaskObserver_Update o0 message) s
              = mkOutcome s (update_events o message) (Some tt)).
  { unfold bind, deref, ret. cbn [value store trace].
    rewrite TaskObserver_Update_run. reflexivity. }
  rewrite E. cbn [value store trace]. rewrite IH. reflexivity.
Qed.

Lemma TaskContext_notify_run (message : string) (c : TaskContext) :
  TaskContext_notify message c
  = mkOutcome c (broadcast_events message (taskObservers c))
              (broadcast_value (taskObservers c)).
Proof.
  unfold TaskContext_notify, bind at 1, get. cbn [value store trace].
  rewrite for_each_Update_run. reflexivity.
Qed.

Lemma TaskState_handle_run (s : TaskState) (c : TaskContext) :
  TaskState_handle s c
  = mkOutcome c
      (Stdout (entry_action_text s)
       :: broadcast_events (entry_action_text s) (taskObservers c))
      (broadcast_value (taskObservers c)).
Proof.
  destruct s; cbn [TaskState_handle];
    unfold CreateState_handle, InProgressState_handle,
           CompletedState_handle, CancelledState_handle;
    unfold bind, cout_endl, emit; cbn [value store trace];
    rewrite TaskContext_notify_run; reflexivity.
Qed.

Lemma TaskContext_executeState_run (c : TaskContext) :
  TaskContext_executeState c
  = mkOutcome c (entry_events (currentTaskState c) (taskObservers c))
              (entry_value (currentTaskState c) (taskObservers c)).
Proof.
  unfold TaskContext_executeState, bind, get. cbn [value store trace].
  destruct (currentTaskState c) as [s|]; [|reflexivity].
  rewrite TaskState_handle_run. reflexivity.
Qed.

Lemma Task_changeState_run (newState : unique_ptr TaskState) (t : Task) :
  Task_changeState newState t
  = mkOutcome
      (set_taskContext
         (mkTaskContext newState (taskObservers (taskContext t))) t)
      (entry_events newState (taskObservers (taskContext t)))
      (entry_value newState (taskObservers (taskContext t))).
Proof.
  unfold Task_changeState, bind, on_taskContext, on_member,
         TaskContext_setState, modify.
  cbn [value store trace taskContext set_taskContext].
  rewrite TaskContext_executeState_run. reflexivity.
Qed.

Lemma Task_ctor_run (now id : Z) (title : string) (priority : TaskPriority) :
  Task_ctor now id title priority
  = mkOutcome
      (mkTask id title "" now (now + 172800) priority
              (mkTaskContext (Some CreateState) []))
      [Stdout "Task has been created..."]
      (Some tt).
Proof. reflexivity. Qed.

Lemma bind_run {S A B} (m : Exec S A) (f : A -> Exec S B) (s : S) (a : A) :
  value (m s) = Some a ->
  bind m f s
  = mkOutcome (store (f a (store (m s))))
              (trace (m s) ++ trace (f a (store (m s))))
              (value (f a (store (m s)))).
Proof. intros E. unfold bind. rewrite E. reflexivity. Qed.

Lemma bind_stop {S A B} (m : Exec S A) (f : A -> Exec S B) (s : S) :
  value (m s) = None ->
  bind m f s = mkOutcome (store (m s)) (trace (m s)) None.
Proof. intros E. unfold bind. rewrite E. reflexivity. Qed.

Lemma bind_get {S B} (f : S -> Exec S B) (s : S) : bind get f s = f s s.
Proof. unfold bind, get. cbn. destruct (f s s); reflexivity. Qed.

Lemma bind_ret {S A B} (a : A) (f : A -> Exec S B) (s : S) :
  bind (ret a) f s = f a s.
Proof. unfold bind, ret. cbn. destruct (f a s); reflexivity. Qed.

Lemma bind_undefined {S A B} (f : A -> Exec S B) (s : S) :
  bind undefined f s = mkOutcome s [] None.
Proof. reflexivity. Qed.

Lemma bind_cout {S B} (line : string) (f : unit -> Exec S B) (s : S) :
  bind (cout_endl line) f s = after_event (Stdout line) (f tt s).
Proof. reflexivity. Qed.

Lemma and_then_run {S A B} (r : Outcome S A) (f : A -> Exec S B) (a : A) :
  value r = Some a ->
  and_then r f
  = mkOutcome (store (f a (store r)))
              (trace r ++ trace (f a (store r)))
              (value (f a (store r))).
Proof. intros E. unfold and_then, bind. rewrite E. reflexivity. Qed.

(** *** The builder *)

Lemma BuilderCall_run_inv (call : BuilderCall) (b : TaskManager) :
  let r := BuilderCall_run call b in
  trace r = [] /\ value r = Some tt
  /\ state_of (task (store r)) = state_of (task b)
  /\ registry (task (store r))
     = (registry (task b) ++ BuilderCall_registers call)%list
  /\ Id (task (store r)) = Id (task b)
  /\ taskTitle (task (store r)) = taskTitle (task b).
Proof.
  destruct call; cbn; unfold registry, state_of;
    rewrite ?app_nil_r; repeat split; reflexivity.
Qed.

Lemma BuilderCalls_run_inv (calls : list BuilderCall) (b : TaskManager) :
  let r := for_each calls BuilderCall_run b in
  trace r = [] /\ value r = Some tt
  /\ state_of (task (store r)) = state_of (task b)
  /\ registry (task (store r))
     = (registry (task b) ++ flat_map BuilderCall_registers calls)%list
  /\ Id (task (store r)) = Id (task b)
  /\ taskTitle (task (store r)) = taskTitle (task b).
Proof.
  revert b. induction calls as [|call calls IH]; intros b.
  - cbn. rewrite app_nil_r. repeat split; reflexivity.
  - destruct (BuilderCall_run_inv call b) as (Ht & Hv & Hs & Hr & Hi & Hn).
    cbn [for_each flat_map]. cbv zeta.
    rewrite (bind_run _ _ _ tt Hv). cbn [store trace value].
    destruct (IH (store (BuilderCall_run call b)))
      as (Ht' & Hv' & Hs' & Hr' & Hi' & Hn').
    rewrite Ht, Ht', Hv', Hs', Hr', Hi', Hn', Hs, Hr, Hi, Hn, app_assoc.
    repeat split; reflexivity.
Qed.

Lemma builder_after_inv (now id : Z) (title : string)
      (priority : TaskPriority) (calls : list BuilderCall) :
  let r := builder_after now id title priority calls in
  trace r = [Stdout "Task has been created..."] /\ value r = Some tt
  /\ state_of (task (store r)) = Some CreateState
  /\ registry (task (store r)) = flat_map BuilderCall_registers calls
  /\ Id (task (store r)) = id
  /\ taskTitle (task (store r)) = title.
Proof.
  unfold builder_after, TaskManager_ctor.
  rewrite Task_ctor_run. cbn [store trace value].
  set (b0 := mkTaskManager _).
  rewrite (and_then_run (mkOutcome b0 _ (Some tt)) _ tt eq_refl).
  cbn [store trace value].
  destruct (BuilderCalls_run_inv calls b0) as (Ht & Hv & Hs & Hr & Hi & Hn).
  rewrite Ht, Hv, Hs, Hr, Hi, Hn. repeat split; reflexivity.
Qed.

Lemma TaskManager_build_run (mfs : string -> string) (b : TaskManager) :
  TaskManager_build mfs b
  = mkOutcome (mkTaskManager (Task_moved_from mfs (task b))) [] (Some (task b)).
Proof. reflexivity. Qed.

Lemma built_run (mfs : string -> string) (now id : Z) (title : string)
      (priority : TaskPriority) (calls : list BuilderCall) :
  built mfs now id title priority calls
  = mkOutcome
      (mkTaskManager
         (Task_moved_from mfs
            (task (store (builder_after now id title priority calls)))))
      [Stdout "Task has been created..."]
      (Some (task (store (builder_after now id title priority calls)))).
Proof.
  unfold built.
  destruct (builder_after_inv now id title priority calls) as (Ht & Hv & _).
  rewrite (and_then_run _ _ tt Hv). cbn [store trace value].
  rewrite TaskManager_build_run, Ht. reflexivity.
Qed.

Lemma registers_of_valid_sinks (os : list TaskObserver) :
  flat_map BuilderCall_registers
           (map (fun o => BuilderAddTaskObserver (Some o)) os)
  = map Some os.
Proof. induction os as [|o os IH]; cbn; [|rewrite IH]; reflexivity. Qed.

(** *** Registration on a Task *)

Lemma register_all_run (os : list TaskObserver) (t : Task) :
  for_each os (fun o => Task_addTaskObserver (Some o)) t
  = mkOutcome
      (set_taskContext
         (mkTaskContext (state_of t) (registry t ++ map Some os)) t)
      [] (Some tt).
Proof.
  revert t. induction os as [|o os IH]; intros t.
  - cbn. rewrite app_nil_r. destruct t as [? ? ? ? ? ? []]. reflexivity.
  - cbn [for_each map].
    rewrite (bind_run (Task_addTaskObserver (Some o)) _ t tt eq_refl).
    rewrite IH.
    cbn. unfold registry, state_of. cbn. rewrite <- app_assoc. reflexivity.
Qed.

Lemma sinks_before_null_valid (os : list TaskObserver) :
  sinks_before_null (map Some os) = os.
Proof. induction os as [|o os IH]; cbn; [|rewrite IH]; reflexivity. Qed.

Lemma has_null_valid (os : list TaskObserver) : has_null (map Some os) = false.
Proof. induction os as [|o os IH]; cbn; [reflexivity | exact IH]. Qed.

(** *** Counting deliveries *)

Lemma times_notified_app (o : TaskObserver) (message : string)
      (a b : list Event) :
  times_notified o message (a ++ b)
  = (times_notified o message a + times_notified o message b)%nat.
Proof. unfold times_notified. apply count_occ_app. Qed.

Lemma times_notified_update_events (o o' : TaskObserver)
      (message message' : string) :
  times_notified o message (update_events o' message')
  = if string_dec message message'
    then (if TaskObserver_eq_dec o' o then 1%nat else 0%nat)
    else 0%nat.
Proof.
  unfold times_notified.
  assert (E : update_events o' message'
              = [Notified o' message';
                 Stdout (hd "" (stdout (update_events o' message')))])
    by (destruct o'; reflexivity).
  rewrite E. cbn [count_occ].
  destruct (Event_eq_dec (Stdout _) (Notified o message)) as [D|_];
    [discriminate D|].
  destruct (Event_eq_dec (Notified o' message') (Notified o message))
    as [D|D].
  - injection D as -> ->.
    destruct (string_dec message message) as [_|N]; [|congruence].
    destruct (TaskObserver_eq_dec o o) as [_|N]; [reflexivity|congruence].
  - destruct (string_dec message message') as [->|_]; [|reflexivity].
    destruct (TaskObserver_eq_dec o' o) as [->|_]; [congruence|reflexivity].
Qed.

Lemma times_notified_broadcast (o : TaskObserver) (message message' : string)
      (l : list (shared_ptr TaskObserver)) :
  times_notified o message (broadcast_events message' l)
  = if string_dec message message'
    then count_occ TaskObserver_eq_dec (sinks_before_null l) o
    else 0%nat.
Proof.
  unfold broadcast_events.
  induction (sinks_before_null l) as [|o' os IH]; cbn [flat_map count_occ].
  - destruct (string_dec message message'); reflexivity.
  - rewrite times_notified_app, times_notified_update_events, IH.
    destruct (string_dec message message'); [|reflexivity].
    destruct (TaskObserver_eq_dec o' o); reflexivity.
Qed.

Lemma times_notified_entry_events (o : TaskObserver) (message : string)
      (s : TaskState) (l : list (shared_ptr TaskObserver)) :
  times_notified o message (entry_events (Some s) l)
  = if string_dec message (entry_action_text s)
    then count_occ TaskObserver_eq_dec (sinks_before_null l) o
    else 0%nat.
Proof.
  cbn [entry_events].
  change (Stdout (entry_action_text s)
          :: broadcast_events (entry_action_text s) l)
    with ([Stdout (entry_action_text s)]
          ++ broadcast_events (entry_action_text s) l)%list.
  rewrite times_notified_app, times_notified_broadcast.
  unfold times_notified at 1. cbn [count_occ].
  destruct (Event_eq_dec (Stdout _) (Notified o message)) as [D|_];
    [discriminate D | reflexivity].
Qed.

(** *** Sequences of calls *)

Lemma In_notifications (o : TaskObserver) (message : string)
      (tr : list Event) :
  In (o, message) (notifications tr) <-> In (Notified o message) tr.
Proof.
  induction tr as [|e tr IH]; [reflexivity|].
  destruct e as [line|o' m']; cbn [notifications In].
  - rewrite IH. split; [now right | intros [D|H]; [discriminate D | exact H]].
  - rewrite IH. split; intros [E|H]; try (now right); left; congruence.
Qed.

(** An event of a loop stems from one of its iterations. *)
Lemma for_each_trace_origin {S A} (body : A -> Exec S unit)
      (Q : A -> Event -> Prop) :
  (forall x s e, In e (trace (body x s)) -> Q x e) ->
  forall l s e, In e (trace (for_each l body s)) ->
                exists x, In x l /\ Q x e.
Proof.
  intros HQ l. induction l as [|x l IH]; intros s e He.
  - destruct He.
  - cbn [for_each] in He. unfold bind in He.
    destruct (value (body x s)) as [[]|] eqn:V; cbn [trace] in He.
    + apply in_app_or in He. destruct He as [He|He].
      * exists x. split; [now left | eauto].
      * destruct (IH _ _ He) as (y & Hy & Hq).
        exists y. split; [now right | exact Hq].
    + exists x. split; [now left | eauto].
Qed.

(** A relation every iteration respects is respected by the loop. *)
Lemma for_each_store_inv {S A} (body : A -> Exec S unit)
      (R : S -> S -> Prop) :
  (forall s, R s s) ->
  (forall s1 s2 s3, R s1 s2 -> R s2 s3 -> R s1 s3) ->
  (forall x s, R s (store (body x s))) ->
  forall l s, R s (store (for_each l body s)).
Proof.
  intros Hrefl Htrans Hstep l.
  induction l as [|x l IH]; intros s; [apply Hrefl|].
  cbn [for_each]. unfold bind.
  destruct (value (body x s)) as [[]|]; cbn [store].
  - eapply Htrans; [apply Hstep | apply IH].
  - apply Hstep.
Qed.

Lemma entry_action_text_inj (s s' : TaskState) :
  entry_action_text s = entry_action_text s' -> s = s'.
Proof. destruct s, s'; cbn; intros E; try reflexivity; discriminate E. Qed.

Lemma Task_getCurrentTaskPriorityInString_run (t : Task) :
  exists label,
    Task_getCurrentTaskPriorityInString t = mkOutcome t [] (Some label)
    /\ label = (if taskPriority t =? HIGH then "High"
                else if taskPriority t =? MEDIUM then "Medium"
                else if taskPriority t =? LOW then "Low"
                else "Invalid").
Proof.
  unfold Task_getCurrentTaskPriorityInString, bind, get.
  cbn [value store trace].
  destruct (taskPriority t =? HIGH); [eexists; split; reflexivity|].
  destruct (taskPriority t =? MEDIUM); [eexists; split; reflexivity|].
  destruct (taskPriority t =? LOW); eexists; split; reflexivity.
Qed.

Lemma set_taskContext_same (t : Task) : set_taskContext (taskContext t) t = t.
Proof. destruct t; reflexivity. Qed.

Lemma Task_getCurrentState_run (t : Task) :
  on_taskContext TaskContext_getCurrentState t
  = mkOutcome t []
      (Some (match state_of t with
             | Some s => TaskState_getCurrentState s
             | None => "Invalid State"
             end)).
Proof.
  unfold on_taskContext, on_member, TaskContext_getCurrentState, bind, get, ret.
  cbn [value store trace]. rewrite set_taskContext_same. reflexivity.
Qed.

Lemma Task_print_run (utc_offset : Z -> Z) (t : Task) :
  Task_print utc_offset t
  = match rendered_dates utc_offset t with
    | Some (s, e) =>
        mkOutcome t
          (map Stdout
               (print_lines t
                  (if taskPriority t =? HIGH then "High"
                   else if taskPriority t =? MEDIUM then "Medium"
                   else if taskPriority t =? LOW then "Low"
                   else "Invalid")
                  s e
                  (match state_of t with
                   | Some st => TaskState_getCurrentState st
                   | None => "Invalid State"
                   end)))
          (Some tt)
    | None => mkOutcome t [] None
    end.
Proof.
  unfold Task_print, rendered_dates.
  rewrite bind_get.
  destruct (localtime utc_offset (startDate t)) as [startDt|];
    cbn [filled deref]; [rewrite bind_ret | now rewrite bind_undefined].
  destruct (localtime utc_offset (endDate t)) as [endDt|];
    cbn [filled deref]; [rewrite bind_ret | now rewrite bind_undefined].
  destruct (strftime_Ymd 20 startDt) as [s|];
    cbn [filled deref];
    [rewrite bind_ret
    |rewrite bind_undefined; destruct (strftime_Ymd 20 endDt); reflexivity].
  destruct (strftime_Ymd 20 endDt) as [e|];
    cbn [filled deref]; [rewrite bind_ret | now rewrite bind_undefined].
  destruct (Task_getCurrentTaskPriorityInString_run t) as (label & El & <-).
  rewrite bind_cout, (bind_run _ _ _ label) by (now rewrite El).
  rewrite El. cbn [store trace value].
  rewrite !bind_cout.
  rewrite (bind_run _ _ _ _ (f_equal value (Task_getCurrentState_run t))).
  rewrite Task_getCurrentState_run.
  reflexivity.
Qed.

Lemma notifications_map_Stdout (lines : list string) :
  notifications (map Stdout lines) = [].
Proof. induction lines as [|l lines IH]; [reflexivity | exact IH]. Qed.

Lemma Task_print_pure (utc_offset : Z -> Z) (t : Task) :
  store (Task_print utc_offset t) = t
  /\ notifications (trace (Task_print utc_offset t)) = [].
Proof.
  rewrite Task_print_run.
  destruct (rendered_dates utc_offset t) as [[s e]|]; cbn [store trace].
  - split; [reflexivity | apply notifications_map_Stdout].
  - split; reflexivity.
Qed.

(** What one call on a Task does to the registry and to the state, and whom
    it notifies. *)
Lemma TaskCall_run_inv (utc_offset : Z -> Z) (call : TaskCall) (t : Task) :
  let r := TaskCall_run utc_offset call t in
  registry (store r) = (registry t ++ TaskCall_registers call)%list
  /\ (is_changeState call = false ->
        notifications (trace r) = [] /\ state_of (store r) = state_of t)
  /\ (forall o message, In (o, message) (notifications (trace r)) ->
        exists s, call = CallChangeState (Some s)
                  /\ message = entry_action_text s).
Proof.
  destruct call; cbn [TaskCall_run TaskCall_registers]; cbv zeta;
    rewrite ?app_nil_r;
    try (split; [reflexivity|split; [intros; split; reflexivity|]];
         intros o message []).
  - (* changeState *)
    rewrite Task_changeState_run. cbn [store trace].
    split; [reflexivity|]. split; [intros N; discriminate N|].
    intros o message Hin. destruct newState as [s|]; [|destruct Hin].
    exists s. split; [reflexivity|].
    cbn [entry_events notifications] in Hin.
    rewrite notifications_broadcast_events in Hin.
    apply in_map_iff in Hin. destruct Hin as (o' & E & _). congruence.
  - (* getCurrentTaskPriorityInString *)
    destruct (Task_getCurrentTaskPriorityInString_run t) as (label & El & _).
    unfold bind. rewrite El. cbn [value store trace ret app].
    split; [reflexivity|split; [intros; split; reflexivity|]].
    intros o message [].
  - (* print *)
    destruct (Task_print_pure utc_offset t) as (Es & En).
    rewrite Es, En.
    split; [reflexivity|split; [intros; split; reflexivity|]].
    intros o message [].
Qed.

(** Whoever is handed the text of a state's entry action during a sequence
    of calls on a Task is handed it by a [changeState] to that state. *)
Lemma delivery_origin (utc_offset : Z -> Z) (calls : list TaskCall)
      (t : Task) (o : TaskObserver) (s : TaskState) :
  In (o, entry_action_text s)
     (notifications (trace (for_each calls (TaskCall_run utc_offset) t))) ->
  In (CallChangeState (Some s)) calls.
Proof.
  intros Hin. apply In_notifications in Hin.
  destruct (for_each_trace_origin (TaskCall_run utc_offset)
              (fun call e => forall o' m, e = Notified o' m ->
                 exists s', call = CallChangeState (Some s')
                            /\ m = entry_action_text s'))
    with (l := calls) (s := t) (e := Notified o (entry_action_text s))
    as (call & Hc & Hq).
  - intros call t' e He o' m ->.
    apply In_notifications in He.
    exact (proj2 (proj2 (TaskCall_run_inv utc_offset call t')) o' m He).
  - exact Hin.
  - destruct (Hq o _ eq_refl) as (s' & -> & E).
    apply entry_action_text_inj in E. now subst s'.
Qed.

Lemma after_builds_emptied (mfs : string -> string) (n : nat)
      (b : TaskManager) :
  taskContext (task (after_builds mfs (S n) b)) = mkTaskContext None []
  /\ Id (task (after_builds mfs (S n) b)) = Id (task b).
Proof.
  induction n as [|n [IHc IHi]]; [split; reflexivity|].
  split; [reflexivity|].
  change (Id (task (after_builds mfs (S n) b)) = Id (task b)). exact IHi.
Qed.

Lemma TaskContext_addTaskObserver_run (observer : shared_ptr TaskObserver)
      (c : TaskContext) :
  TaskContext_addTaskObserver observer c
  = mkOutcome (mkTaskContext (currentTaskState c)
                             (taskObservers c ++ [observer]))
              [] (Some tt).
Proof. reflexivity. Qed.

Lemma ContextCall_run_inv (call : ContextCall) (c : TaskContext) :
  taskObservers (store (ContextCall_run call c))
  = (taskObservers c ++ ContextCall_registers call)%list.
Proof.
  destruct call; cbn [ContextCall_run ContextCall_registers];
    rewrite ?app_nil_r.
  - reflexivity.
  - reflexivity.
  - now rewrite TaskContext_notify_run.
  - now rewrite TaskContext_executeState_run.
  - reflexivity.
Qed.

Lemma TaskCalls_run_registry (utc_offset : Z -> Z) (calls : list TaskCall)
      (t : Task) :
  exists added,
    registry (store (for_each calls (TaskCall_run utc_offset) t))
    = (registry t ++ added)%list.
Proof.
  apply (for_each_store_inv (TaskCall_run utc_offset)
           (fun t t' => exists added, registry t' = registry t ++ added)%list).
  - intros s. exists []. now rewrite app_nil_r.
  - intros s1 s2 s3 [a Ea] [b Eb]. exists (a ++ b)%list.
    now rewrite Eb, Ea, app_assoc.
  - intros call s. exists (TaskCall_registers call).
    apply (TaskCall_run_inv utc_offset call s).
Qed.

(* ===================================================================== *)
(** ** Rendering *)
(* ===================================================================== *)

Lemma all_from_spec (f : Z -> bool) (n : nat) (z : Z) :
  all_from f n z = true ->
  forall x, z <= x < z + Z.of_nat n -> f x = true.
Proof.
  revert z. induction n as [|n IH]; intros z H x Hx; [lia|].
  cbn [all_from] in H. apply andb_true_iff in H. destruct H as [Hz Hrest].
  destruct (Z.eq_dec x z) as [->|Hne]; [exact Hz|].
  apply (IH (z + 1) Hrest). lia.
Qed.

Lemma string_app_assoc (a b c : string) : (a ++ b) ++ c = a ++ b ++ c.
Proof. induction a as [|ch a IH]; cbn; [|rewrite IH]; reflexivity. Qed.






(** *** Dates *)

Lemma month_day_in_range_era :
  all_from month_day_in_range (Z.to_nat 146097) 0 = true.
Proof. vm_compute. reflexivity. Qed.

Lemma civil_from_days_range (days : Z) :
  let '(_, m, d) := civil_from_days days in
  1 <= m <= 12 /\ 1 <= d <= 31.
Proof.
  unfold civil_from_days. cbv zeta.
  set (z := days + 719468). set (doe := z - z / 146097 * 146097).
  assert (Hdoe : 0 <= doe < 0 + Z.of_nat (Z.to_nat 146097)).
  { rewrite Z2Nat.id by lia. subst doe. pose proof (Z.mod_pos_bound z 146097 ltac:(lia)) as B.
    rewrite Z.mod_eq in B by lia. lia. }
  pose proof (all_from_spec _ _ _ month_day_in_range_era doe Hdoe) as H.
  unfold month_day_in_range, civil_of_era_day in H. cbv zeta in H.
  unfold civil_of_era_day. cbv zeta.
  repeat (apply andb_true_iff in H; destruct H as [H ?]). lia.
Qed.

Lemma localtime_fields (utc_offset : Z -> Z) (t : Z) (d : tm) :
  localtime utc_offset t = Some d ->
  0 <= tm_mon d <= 11 /\ 1 <= tm_mday d <= 31.
Proof.
  unfold localtime.
  pose proof (civil_from_days_range ((t + utc_offset t) / 86400)) as R.
  destruct (civil_from_days ((t + utc_offset t) / 86400)) as [[y m] dd].
  destruct (_ && _); [|discriminate].
  intros E. injection E as <-. cbn [tm_mon tm_mday]. lia.
Qed.

Lemma four_digits_of_year :
  all_from (fun y => digits_of_length 4 (dec y)) (Z.to_nat 9000) 1000 = true.
Proof. vm_compute. reflexivity. Qed.

Lemma two_digits_of_day :
  all_from (fun n => digits_of_length 2 (dec2 n)) 31 1 = true.
Proof. vm_compute. reflexivity. Qed.

Lemma is_YYYY_MM_DD_parts (y m d : string) :
  digits_of_length 4 y = true ->
  digits_of_length 2 m = true ->
  digits_of_length 2 d = true ->
  is_YYYY_MM_DD (y ++ "-" ++ m ++ "-" ++ d) = true
  /\ String.length (y ++ "-" ++ m ++ "-" ++ d) = 10%nat.
Proof.
  unfold digits_of_length, all_digits.
  destruct y as [|y1 [|y2 [|y3 [|y4 [|y5 y]]]]]; cbn; try discriminate.
  destruct m as [|m1 [|m2 [|m3 m]]]; cbn;
    rewrite ?andb_false_r; try discriminate.
  destruct d as [|d1 [|d2 [|d3 d]]]; cbn;
    rewrite ?andb_false_r; try discriminate.
  unfold is_YYYY_MM_DD. cbn.
  intros Hy Hm Hd.
  repeat match goal with
         | H : _ && _ = true |- _ =>
             apply andb_true_iff in H; destruct H
         end.
  repeat match goal with
         | H : is_digit _ = true |- _ => rewrite H; clear H
         end.
  split; reflexivity.
Qed.

Lemma strftime_Ymd_shape (d : tm) :
  1000 <= tm_year d + 1900 <= 9999 ->
  0 <= tm_mon d <= 11 ->
  1 <= tm_mday d <= 31 ->
  exists s, strftime_Ymd 20 d = Some s /\ is_YYYY_MM_DD s = true.
Proof.
  intros Hy Hm Hd. unfold strftime_Ymd. cbv zeta.
  destruct (is_YYYY_MM_DD_parts (dec (tm_year d + 1900))
              (dec2 (tm_mon d + 1)) (dec2 (tm_mday d))) as (Hs & Hl).
  - apply (all_from_spec _ _ _ four_digits_of_year).
    rewrite Z2Nat.id; lia.
  - apply (all_from_spec _ _ _ two_digits_of_day). lia.
  - apply (all_from_spec _ _ _ two_digits_of_day). lia.
  - rewrite Hl. cbn. eexists. split; [reflexivity | exact Hs].
Qed.

Lemma four_digit_year_renders (utc_offset : Z -> Z) (t : Z) :
  four_digit_year utc_offset t = true ->
  exists d s,
    localtime utc_offset t = Some d
    /\ strftime_Ymd 20 d = Some s
    /\ is_YYYY_MM_DD s = true.
Proof.
  unfold four_digit_year.
  destruct (localtime utc_offset t) as [d|] eqn:L; [|discriminate].
  intros H. apply andb_true_iff in H. destruct H as [H1 H2].
  destruct (localtime_fields _ _ _ L) as (Hm & Hd).
  destruct (strftime_Ymd_shape d) as (s & Es & Hs); [lia | lia | lia |].
  exists d, s. repeat split; assumption.
Qed.

(** *** Reusing a builder *)

Lemma BuilderSteps_run_inv (mfs : string -> string)
      (steps : list BuilderStep) (b : TaskManager) :
  state_of (task b) = None ->
  let r := for_each steps (BuilderStep_run mfs) b in
  trace r = [] /\ value r = Some tt
  /\ state_of (task (store r)) = None
  /\ registry (task (store r))
     = registered_since_build steps (registry (task b)).
Proof.
  revert b. induction steps as [|step steps IH]; intros b Hb; cbv zeta.
  - cbn. repeat split; assumption.
  - cbn [for_each registered_since_build]. destruct step as [call|].
    + destruct (BuilderCall_run_inv call b) as (Ht & Hv & Hs & Hr & _).
      cbn [BuilderStep_run].
      rewrite (bind_run _ _ _ tt Hv). cbn [store trace value].
      destruct (IH (store (BuilderCall_run call b)) (eq_trans Hs Hb))
        as (Ht' & Hv' & Hs' & Hr').
      rewrite Ht, Ht', Hv', Hs', Hr', Hr. repeat split; reflexivity.
    + assert (E : BuilderStep_run mfs StepBuild b
                  = mkOutcome (mkTaskManager (Task_moved_from mfs (task b)))
                              [] (Some tt)) by reflexivity.
      rewrite (bind_run _ _ _ tt (f_equal value E)), E.
      cbn [store trace value].
      destruct (IH (mkTaskManager (Task_moved_from mfs (task b))) eq_refl)
        as (Ht' & Hv' & Hs' & Hr').
      rewrite Ht', Hv', Hs', Hr'. repeat split; reflexivity.
Qed.

(** *** The length of a date text *)








(* ===================================================================== *)
(** ** The model on the source's own run *)
(* ===================================================================== *)

(** Calendar dates of some instants, in UTC. *)
Example localtime_epoch :
  localtime utc 0 = Some (mkTm 70 0 1)
  /\ localtime utc 951782400 = Some (mkTm 100 1 29)
  /\ localtime utc (-1) = Some (mkTm 69 11 31)
  /\ localtime utc 253402300799 = Some (mkTm 8099 11 31)
  /\ localtime utc 253402300800 = Some (mkTm 8100 0 1).
Proof. repeat split; reflexivity. Qed.

(** What [main] prints when started on 2023-11-14 in UTC. *)
Example main_prints :
  stdout (main utc (fun _ => "") 1700000000)
  = [ "Task has been created...";
      "Task Details";
      "Id: 1001, Priority: Low";
      "Title: C++ Dev Task";
      "Description: This is C++ Dev Task for the LinkedIn";
      "Start Date: 2023-11-14, End Date: 2023-11-16";
      "Task Status: Created";
      "";
      "Task Details";
      "Id: 1001, Priority: High";
      "Title: C++ Dev Task";
      "Description: This is C++ Dev Task for the LinkedIn";
      "Start Date: 2023-11-14, End Date: 2023-11-16";
      "Task Status: Created";
      "";
      "Task has been changed to InProgress...";
      "Email: jhon.d@gmail.com , message is Task has been changed to InProgress...";
      "Email: martha.p@gmail.com , message is Task has been changed to InProgress...";
      "SMS : +1-(234)-(435)-1122 , message is Task has been changed to InProgress...";
      "SMS : +91-(982)-(432)-3878 , message is Task has been changed to InProgress...";
      "";
      "Task has been completed...";
      "Email: jhon.d@gmail.com , message is Task has been completed...";
      "Email: martha.p@gmail.com , message is Task has been completed...";
      "SMS : +1-(234)-(435)-1122 , message is Task has been completed...";
      "SMS : +91-(982)-(432)-3878 , message is Task has been completed..." ].
Proof. vm_compute. reflexivity. Qed.

(* ===================================================================== *)
(** ** Properties of the lifecycle core *)
(* ===================================================================== *)

(** C1: register the observers [os1] through the builder, build, register the
    observers [os2] on the Task, then call [changeState(X)] once.  The call
    returns; the deliveries it makes are exactly one per registration, in
    registration order, each carrying the entry-action text of [X]; an
    observer registered [n] times is handed that text [n] times and no other
    text; nothing was delivered before the call. *)
Theorem C1_every_observer_notified_once_in_order :
  forall (moved_from_string : string -> string) (now id : Z) (title : string)
         (priority : TaskPriority) (os1 os2 : list TaskObserver)
         (X : TaskState),
    let b := built moved_from_string now id title priority
                   (map (fun o => BuilderAddTaskObserver (Some o)) os1) in
    exists t,
      value b = Some t
      /\ let r0 := for_each os2 (fun o => Task_addTaskObserver (Some o)) t in
         let r := Task_changeState (Some X) (store r0) in
         value r0 = Some tt
         /\ value r = Some tt
         /\ notifications (trace r)
            = map (fun o => (o, entry_action_text X)) (os1 ++ os2)
         /\ trace r
            = Stdout (entry_action_text X)
              :: flat_map (fun o => update_events o (entry_action_text X))
                          (os1 ++ os2)
         /\ (forall o message,
                times_notified o message (trace r)
                = if string_dec message (entry_action_text X)
                  then count_occ TaskObserver_eq_dec (os1 ++ os2) o
                  else 0%nat)
         /\ notifications (trace b) = []
         /\ notifications (trace r0) = [].
Proof.
  intros mfs now id title priority os1 os2 X b.
  subst b. rewrite built_run. cbn [value trace].
  destruct (builder_after_inv now id title priority
              (map (fun o => BuilderAddTaskObserver (Some o)) os1))
    as (_ & _ & Hs & Hr & _).
  rewrite registers_of_valid_sinks in Hr.
  set (t := task (store (builder_after now id title priority _))) in *.
  exists t. split; [reflexivity|]. cbv zeta.
  rewrite register_all_run. cbn [store trace value].
  rewrite Task_changeState_run. cbn [store trace value taskContext
    set_taskContext taskObservers].
  rewrite Hr, <- map_app.
  cbn [entry_value entry_events]. unfold broadcast_value, broadcast_events.
  rewrite has_null_valid, sinks_before_null_valid.
  repeat split.
  - pose proof (notifications_broadcast_events (entry_action_text X)
                  (map Some (os1 ++ os2))) as N.
    unfold broadcast_events in N. rewrite sinks_before_null_valid in N.
    exact N.
  - intros o message.
    pose proof (times_notified_entry_events o message X
                  (map Some (os1 ++ os2))) as N.
    cbn [entry_events] in N. unfold broadcast_events in N.
    rewrite sinks_before_null_valid in N. exact N.
Qed.

(** C2: constructing a Task, directly or through the builder with any
    builder calls, leaves it in [Created]; the Created entry action runs
    inside the constructor (its message is emitted, and its broadcast goes
    over the still empty registry, so it reaches nobody); registering
    observers later replays nothing: in any later sequence of calls the only
    way the Created text reaches an observer is a new [changeState] to
    [Created]. *)
Theorem C2_construction_enters_Created_and_notifies_nobody :
  forall (utc_offset : Z -> Z) (moved_from_string : string -> string)
         (now id : Z) (title : string) (priority : TaskPriority)
         (bcalls : list BuilderCall),
    let c := Task_ctor now id title priority in
    let b := built moved_from_string now id title priority bcalls in
    (value c = Some tt
     /\ state_of (store c) = Some CreateState
     /\ registry (store c) = []
     /\ trace c = [Stdout (entry_action_text CreateState)]
     /\ notifications (trace c) = [])
    /\ exists t,
         value b = Some t
         /\ state_of t = Some CreateState
         /\ registry t = flat_map BuilderCall_registers bcalls
         /\ trace b = [Stdout (entry_action_text CreateState)]
         /\ notifications (trace b) = []
         /\ (forall calls,
               forallb (fun call => negb (is_changeState call)) calls = true ->
               notifications
                 (trace (for_each calls (TaskCall_run utc_offset) t)) = [])
         /\ (forall calls o,
               In (o, entry_action_text CreateState)
                  (notifications
                     (trace (for_each calls (TaskCall_run utc_offset) t))) ->
               In (CallChangeState (Some CreateState)) calls).
Proof.
  intros tz mfs now id title priority bcalls c b. subst c b.
  rewrite Task_ctor_run, built_run. cbn [value store trace].
  split; [repeat split; reflexivity|].
  destruct (builder_after_inv now id title priority bcalls)
    as (_ & _ & Hs & Hr & _).
  eexists. split; [reflexivity|].
  split; [exact Hs|]. split; [exact Hr|].
  split; [reflexivity|]. split; [reflexivity|]. split.
  - intros calls Hall.
    destruct (notifications (trace (for_each calls (TaskCall_run tz) _)))
      as [|[o m] rest] eqn:N; [reflexivity|exfalso].
    assert (Hin : In (Notified o m)
                     (trace (for_each calls (TaskCall_run tz)
                        (task (store (builder_after now id title priority
                                        bcalls)))))).
    { apply In_notifications. rewrite N. now left. }
    destruct (for_each_trace_origin (TaskCall_run tz)
                (fun call e => forall o' m', e = Notified o' m' ->
                   is_changeState call = true))
      with (l := calls)
           (s := task (store (builder_after now id title priority bcalls)))
           (e := Notified o m)
      as (call & Hc & Hq).
    + intros call t' e He o' m' ->. apply In_notifications in He.
      destruct (proj2 (proj2 (TaskCall_run_inv tz call t')) o' m' He)
        as (s' & -> & _). reflexivity.
    + exact Hin.
    + rewrite forallb_forall in Hall. specialize (Hall call Hc).
      rewrite (Hq o m eq_refl) in Hall. discriminate Hall.
  - intros calls o. apply delivery_origin.
Qed.

(** C3: from any current state [S] to any state [T], [setState] is a plain
    assignment and [changeState] runs [T]'s entry action: the state
    afterwards is [T]; the object, the events and whether the call returns
    are the same whatever [S] was (only a null sink in the registry stops the
    broadcast, for every [S] and [T] alike); Completed to Created is one such
    transition. *)
Theorem C3_every_transition_is_accepted :
  forall (S T : TaskState) (t : Task),
    let cS := mkTaskContext (Some S) (registry t) in
    let tS := set_taskContext cS t in
    TaskContext_setState (Some T) cS
    = mkOutcome (mkTaskContext (Some T) (registry t)) [] (Some tt)
    /\ state_of (store (Task_changeState (Some T) tS)) = Some T
    /\ Task_changeState (Some T) tS = Task_changeState (Some T) t
    /\ value (Task_changeState (Some T) tS)
       = (if has_null (registry t) then None else Some tt)
    /\ value (Task_changeState (Some T) tS)
       = value (Task_changeState (Some S) tS)
    /\ state_of
         (store (Task_changeState (Some CreateState)
                   (set_taskContext
                      (mkTaskContext (Some CompletedState) (registry t)) t)))
       = Some CreateState.
Proof.
  intros S T t cS tS. subst cS tS.
  rewrite !Task_changeState_run. cbn [store trace value].
  destruct t as [i ti d sd ed p [st obs]].
  repeat split; reflexivity.
Qed.

(** C4: on a Task whose registry holds the sinks [os], two successive
    [changeState(S)] calls with the same [S] both return, and the second
    repeats the events of the first: the entry message is printed twice and
    each registration is delivered to twice, so an observer registered [n]
    times is handed the text [2 * n] times, against [n] for one call. *)
Theorem C4_same_state_twice_notifies_twice :
  forall (t : Task) (os : list TaskObserver) (S : TaskState),
    registry t = map Some os ->
    let once := Task_changeState (Some S) t in
    let twice :=
      (Task_changeState (Some S) ;; Task_changeState (Some S)) t in
    value twice = Some tt
    /\ state_of (store twice) = Some S
    /\ trace twice = (trace once ++ trace once)%list
    /\ notifications (trace once)
       = map (fun o => (o, entry_action_text S)) os
    /\ notifications (trace twice)
       = (map (fun o => (o, entry_action_text S)) os
          ++ map (fun o => (o, entry_action_text S)) os)%list
    /\ (forall o,
          times_notified o (entry_action_text S) (trace once)
          = count_occ TaskObserver_eq_dec os o
          /\ times_notified o (entry_action_text S) (trace twice)
             = (2 * count_occ TaskObserver_eq_dec os o)%nat)
    /\ stdout (trace twice)
       = (stdout (trace once) ++ stdout (trace once))%list.
Proof.
  intros t os S Hreg once twice.
  assert (V1 : value once = Some tt).
  { subst once. rewrite Task_changeState_run. cbn [value entry_value].
    unfold registry in Hreg. rewrite Hreg. unfold broadcast_value.
    now rewrite has_null_valid. }
  assert (E2 : Task_changeState (Some S) (store once)
               = mkOutcome (store once) (trace once) (Some tt)).
  { subst once. rewrite !Task_changeState_run. cbn [store trace value
      taskContext set_taskContext taskObservers entry_value].
    unfold registry in Hreg. rewrite Hreg. unfold broadcast_value.
    now rewrite has_null_valid. }
  assert (T2 : twice = mkOutcome (store once) (trace once ++ trace once)
                                 (Some tt)).
  { subst twice. rewrite (bind_run _ _ _ tt V1).
    fold once. rewrite E2. reflexivity. }
  assert (N1 : notifications (trace once)
               = map (fun o => (o, entry_action_text S)) os).
  { subst once. rewrite Task_changeState_run. cbn [trace entry_events
      notifications].
    rewrite notifications_broadcast_events.
    unfold registry in Hreg. now rewrite Hreg, sinks_before_null_valid. }
  assert (C1 : forall o, times_notified o (entry_action_text S) (trace once)
                         = count_occ TaskObserver_eq_dec os o).
  { intros o. subst once. rewrite Task_changeState_run. cbn [trace].
    rewrite times_notified_entry_events.
    unfold registry in Hreg. rewrite Hreg, sinks_before_null_valid.
    destruct (string_dec _ _) as [_|N]; [reflexivity|congruence]. }
  rewrite T2. cbn [store trace value].
  split; [reflexivity|]. split.
  { subst once. rewrite Task_changeState_run. reflexivity. }
  split; [reflexivity|]. split; [exact N1|]. split.
  { now rewrite notifications_app, N1. }
  split.
  { intros o. split; [apply C1|].
    rewrite times_notified_app, C1. lia. }
  apply stdout_app.
Qed.

(** C4, on a Task with two sinks of the source's [main]: each is handed the
    Completed text twice. *)
Lemma C4_same_state_twice_witness :
  registry two_sink_task
  = map Some [EmailTaskObserver "jhon.d@gmail.com";
              SMSTaskObserver "+1-(234)-(435)-1122"]
  /\ forall o,
       times_notified o (entry_action_text CompletedState)
         (trace ((Task_changeState (Some CompletedState) ;;
                  Task_changeState (Some CompletedState)) two_sink_task))
       = (2 * count_occ TaskObserver_eq_dec
                [EmailTaskObserver "jhon.d@gmail.com";
                 SMSTaskObserver "+1-(234)-(435)-1122"] o)%nat.
Proof.
  split; [reflexivity|].
  intros o.
  exact (proj2 (proj1 (proj2 (proj2 (proj2 (proj2 (proj2
    (C4_same_state_twice_notifies_twice two_sink_task
       [EmailTaskObserver "jhon.d@gmail.com";
        SMSTaskObserver "+1-(234)-(435)-1122"]
       CompletedState eq_refl))))))
    o)).
Defined.

(** C5, as the code has it: [build()] returns the builder's Task as it
    stands (state, registry and fields) and leaves a moved-from Task behind.
    Every later [build()] on the same builder, whatever builder calls and
    builds come in between, returns a Task with a null state, so that the
    state query answers with the sentinel, whose registry holds exactly the
    sinks registered on the builder since the build before it; it is never
    equal to the first Task.  When builds follow one another directly the
    Task is emptied: it has no observers. *)
Theorem C5_build_moves_the_task_out :
  forall (moved_from_string : string -> string) (now id : Z)
         (title : string) (priority : TaskPriority)
         (calls : list BuilderCall),
    let b0 := store (builder_after now id title priority calls) in
    let first := TaskManager_build moved_from_string b0 in
    exists t1,
      value first = Some t1
      /\ t1 = task b0
      /\ trace first = []
      /\ state_of t1 = Some CreateState
      /\ registry t1 = flat_map BuilderCall_registers calls
      /\ Id t1 = id
      /\ taskTitle t1 = title
      /\ (forall n,
            exists tn,
              value (TaskManager_build moved_from_string
                       (after_builds moved_from_string (S n) b0)) = Some tn
              /\ registry tn = []
              /\ state_of tn = None
              /\ value (on_taskContext TaskContext_getCurrentState tn)
                 = Some "Invalid State"
              /\ tn <> t1)
      /\ (forall calls',
            let again :=
              (for_each calls' BuilderCall_run ;;
               TaskManager_build moved_from_string) (store first) in
            exists t2,
              value again = Some t2
              /\ state_of t2 = None
              /\ value (on_taskContext TaskContext_getCurrentState t2)
                 = Some "Invalid State"
              /\ registry t2 = flat_map BuilderCall_registers calls'
              /\ t2 <> t1)
      /\ (forall steps,
            let later :=
              (for_each steps (BuilderStep_run moved_from_string) ;;
               TaskManager_build moved_from_string) (store first) in
            exists t,
              value later = Some t
              /\ trace later = []
              /\ state_of t = None
              /\ value (on_taskContext TaskContext_getCurrentState t)
                 = Some "Invalid State"
              /\ registry t = registered_since_build steps []
              /\ t <> t1).
Proof.
  intros mfs now id title priority calls b0 first.
  destruct (builder_after_inv now id title priority calls)
    as (_ & _ & Hs & Hr & Hi & Hn).
  fold b0 in Hs, Hr, Hi, Hn.
  exists (task b0). subst first. rewrite TaskManager_build_run.
  cbn [value store trace].
  repeat (split; [first [reflexivity | assumption]|]).
  split; [|split].
  - intros n. rewrite TaskManager_build_run. cbn [value].
    destruct (after_builds_emptied mfs n b0) as (Ec & _).
    exists (task (after_builds mfs (S n) b0)).
    split; [reflexivity|].
    rewrite Task_getCurrentState_run. unfold registry, state_of.
    rewrite Ec. cbn [taskObservers currentTaskState value].
    repeat split.
    intros E. rewrite <- E in Hs. unfold state_of in Hs.
    rewrite Ec in Hs. discriminate Hs.
  - intros calls'. cbv zeta.
    set (b1 := mkTaskManager (Task_moved_from mfs (task b0))).
    destruct (BuilderCalls_run_inv calls' b1) as (Ht & Hv & Hs' & Hr' & _).
    rewrite (bind_run _ _ _ tt Hv), TaskManager_build_run.
    cbn [value store trace].
    eexists. split; [reflexivity|].
    rewrite Task_getCurrentState_run, Hs', Hr'. cbn [value].
    repeat split.
    intros E. rewrite <- E, Hs' in Hs. discriminate Hs.
  - intros steps. cbv zeta.
    set (b1 := mkTaskManager (Task_moved_from mfs (task b0))).
    destruct (BuilderSteps_run_inv mfs steps b1 eq_refl)
      as (Ht & Hv & Hs' & Hr').
    rewrite (bind_run _ _ _ tt Hv), TaskManager_build_run.
    cbn [value store trace]. rewrite Ht.
    eexists. split; [reflexivity|]. split; [reflexivity|].
    rewrite Task_getCurrentState_run, Hs', Hr'. cbn [value].
    repeat split.
    intros E. rewrite <- E, Hs' in Hs. discriminate Hs.
Qed.

(** C5, the claim as stated, fails: a sink registered on the builder between
    two builds is in the registry of the second Task, which is therefore not
    without observers; its state is null. *)
Lemma C5_registration_between_builds :
  let b0 := store (builder_after 1700000000 1001 "C++ Dev Task" LOW
                     [BuilderAddTaskObserver
                        (Some (EmailTaskObserver "jhon.d@gmail.com"))]) in
  let first := TaskManager_build (fun _ => "") b0 in
  let second :=
    (TaskManager_addTaskObserver (Some (SMSTaskObserver "+1-555")) ;;
     TaskManager_build (fun _ => "")) (store first) in
  option_map registry (value first)
  = Some [Some (EmailTaskObserver "jhon.d@gmail.com")]
  /\ option_map registry (value second)
     = Some [Some (SMSTaskObserver "+1-555")]
  /\ option_map state_of (value second) = Some None.
Proof. cbv zeta. repeat split; reflexivity. Qed.

(** C6: no operation takes a sink out of the registry.  Each call on a
    context, on a Task or on the builder leaves the registry as it was, with
    the sink it registers, if any, added at the end; [build()] hands the
    Task over with its registry; so over any sequence of calls on a Task the
    old registry is a prefix of the new one, and the sink at each position
    stays at that position. *)
Theorem C6_registry_is_append_only :
  forall (utc_offset : Z -> Z) (moved_from_string : string -> string),
    (forall call c,
        taskObservers (store (ContextCall_run call c))
        = (taskObservers c ++ ContextCall_registers call)%list)
    /\ (forall call t,
           registry (store (TaskCall_run utc_offset call t))
           = (registry t ++ TaskCall_registers call)%list)
    /\ (forall call b,
           registry (task (store (BuilderCall_run call b)))
           = (registry (task b) ++ BuilderCall_registers call)%list)
    /\ (forall b,
           value (TaskManager_build moved_from_string b) = Some (task b))
    /\ (forall calls t,
           exists added,
             registry (store (for_each calls (TaskCall_run utc_offset) t))
             = (registry t ++ added)%list)
    /\ (forall calls t i p,
           nth_error (registry t) i = Some p ->
           nth_error
             (registry (store (for_each calls (TaskCall_run utc_offset) t))) i
           = Some p).
Proof.
  intros tz mfs.
  split; [exact ContextCall_run_inv|].
  split; [intros call t; apply (TaskCall_run_inv tz call t)|].
  split; [intros call b; apply (BuilderCall_run_inv call b)|].
  split; [reflexivity|].
  split; [apply TaskCalls_run_registry|].
  intros calls t i p Hi.
  destruct (TaskCalls_run_registry tz calls t) as [added ->].
  rewrite nth_error_app1; [exact Hi|].
  apply nth_error_Some. congruence.
Qed.

(** C7: the state-label query always returns, changes nothing and prints
    nothing; its value is the label of the current variant, or the sentinel
    when the state pointer is null. *)
Theorem C7_state_label_or_sentinel :
  forall c : TaskContext,
    TaskContext_getCurrentState c
    = mkOutcome c []
        (Some (match currentTaskState c with
               | Some CreateState => "Created"
               | Some InProgressState => "InProgress"
               | Some CompletedState => "Completed"
               | Some CancelledState => "Cancelled"
               | None => "Invalid State"
               end)).
Proof.
  intros c. unfold TaskContext_getCurrentState. rewrite bind_get.
  destruct (currentTaskState c) as [[]|]; reflexivity.
Qed.




(** C9, as the code has it: registration has no guard.  [addTaskObserver],
    on the context, on the Task and on the builder, appends the pointer it is
    given, null or not, prints nothing and returns.  A broadcast calls the
    sinks in front of the first null one, in order, and returns only when
    the registry holds no null sink; at a null sink it dereferences it. *)
Theorem C9_registration_is_unguarded :
  forall (observer : shared_ptr TaskObserver) (message : string)
         (c : TaskContext) (t : Task) (b : TaskManager),
    TaskContext_addTaskObserver observer c
    = mkOutcome (mkTaskContext (currentTaskState c)
                               (taskObservers c ++ [observer]))
                [] (Some tt)
    /\ (let r := Task_addTaskObserver observer t in
        value r = Some tt /\ trace r = []
        /\ registry (store r) = (registry t ++ [observer])%list)
    /\ (let r := TaskManager_addTaskObserver observer b in
        value r = Some tt /\ trace r = []
        /\ registry (task (store r)) = (registry (task b) ++ [observer])%list)
    /\ TaskContext_notify message c
       = mkOutcome c
           (flat_map (fun o => update_events o message)
                     (sinks_before_null (taskObservers c)))
           (if has_null (taskObservers c) then None else Some tt).
Proof.
  intros observer message c t b.
  split; [reflexivity|].
  split; [repeat split; reflexivity|].
  split; [repeat split; reflexivity|].
  apply TaskContext_notify_run.
Qed.

(** C9, the claim as stated, fails: registering the null sink on a Task with
    two sinks returns normally with the null sink in the registry, and the
    next [changeState] notifies the two sinks and then stops at the null
    one. *)
Lemma C9_null_sink_is_accepted :
  let r := Task_addTaskObserver None two_sink_task in
  let next := Task_changeState (Some InProgressState) (store r) in
  value r = Some tt
  /\ trace r = []
  /\ registry (store r)
     = [Some (EmailTaskObserver "jhon.d@gmail.com");
        Some (SMSTaskObserver "+1-(234)-(435)-1122");
        None]
  /\ value next = None
  /\ notifications (trace next)
     = [(EmailTaskObserver "jhon.d@gmail.com",
         "Task has been changed to InProgress...");
        (SMSTaskObserver "+1-(234)-(435)-1122",
         "Task has been changed to InProgress...")].
Proof. cbv zeta. repeat split; reflexivity. Qed.

(** C10: [changeState] replaces the current state of the owned context and
    nothing else: the id, the title, the description, both dates, the
    priority and the registry of the Task are as before, whatever pointer is
    passed and however the broadcast ends. *)
Theorem C10_changeState_changes_only_the_state :
  forall (t : Task) (newState : unique_ptr TaskState),
    let t' := store (Task_changeState newState t) in
    Id t' = Id t
    /\ taskTitle t' = taskTitle t
    /\ taskDescription t' = taskDescription t
    /\ startDate t' = startDate t
    /\ endDate t' = endDate t
    /\ taskPriority t' = taskPriority t
    /\ registry t' = registry t
    /\ state_of t' = newState.
Proof.
  intros t newState. cbv zeta. rewrite Task_changeState_run.
  repeat split; reflexivity.
Qed.

(* ===================================================================== *)
(** ** Further properties of the Task classes *)
(* ===================================================================== *)




(** X2: the state query tells the states apart.  Two contexts answer
    [getCurrentState] with the same text only when they are in the same
    state; in particular the answer is the sentinel exactly when the state
    pointer is null. *)
Theorem X2_state_label_identifies_the_state :
  forall c c' : TaskContext,
    (value (TaskContext_getCurrentState c)
     = value (TaskContext_getCurrentState c')
     <-> currentTaskState c = currentTaskState c')
    /\ (value (TaskContext_getCurrentState c) = Some "Invalid State"
        <-> currentTaskState c = None).
Proof.
  intros c c'. unfold TaskContext_getCurrentState. rewrite !bind_get.
  cbn [ret value].
  destruct (currentTaskState c) as [[]|], (currentTaskState c') as [[]|];
    cbn; repeat split; intros E; try reflexivity; try discriminate E.
Qed.

(** X3: the priority query returns, changes nothing and prints nothing; it
    answers "High", "Medium" or "Low" exactly for the enumerators 0, 1 and
    2, and "Invalid" exactly for every other value of the enumeration
    type. *)
Theorem X3_priority_label :
  forall t : Task,
    exists label,
      Task_getCurrentTaskPriorityInString t = mkOutcome t [] (Some label)
      /\ (label = "High" <-> taskPriority t = HIGH)
      /\ (label = "Medium" <-> taskPriority t = MEDIUM)
      /\ (label = "Low" <-> taskPriority t = LOW)
      /\ (label = "Invalid" <-> ~ (0 <= taskPriority t <= 2)).
Proof.
  intros t.
  destruct (Task_getCurrentTaskPriorityInString_run t) as (label & E & L).
  exists label. split; [exact E|]. subst label.
  unfold HIGH, MEDIUM, LOW.
  destruct (Z.eqb_spec (taskPriority t) 0) as [H0|H0];
    [|destruct (Z.eqb_spec (taskPriority t) 1) as [H1|H1];
      [|destruct (Z.eqb_spec (taskPriority t) 2) as [H2|H2]]];
    repeat split; intros H; try discriminate H; try lia; try reflexivity.
Qed.

(** X4: [changeState(nullptr)] is accepted.  On every Task, even one with a
    null sink in its registry, the call returns without any event and leaves
    the Task without a state; the state query then answers with the
    sentinel, and [executeState] on that context does nothing. *)
Theorem X4_changeState_null_leaves_no_state :
  forall t : Task,
    let r := Task_changeState None t in
    value r = Some tt
    /\ trace r = []
    /\ state_of (store r) = None
    /\ registry (store r) = registry t
    /\ value (on_taskContext TaskContext_getCurrentState (store r))
       = Some "Invalid State"
    /\ TaskContext_executeState (taskContext (store r))
       = mkOutcome (taskContext (store r)) [] (Some tt).
Proof.
  intros t. cbv zeta. rewrite Task_changeState_run. cbn [store trace value].
  rewrite Task_getCurrentState_run, TaskContext_executeState_run.
  repeat split; reflexivity.
Qed.

Lemma stdout_update_events (o : TaskObserver) (message : string) :
  stdout (update_events o message) = [delivery_line o message].
Proof. destruct o; reflexivity. Qed.

Lemma stdout_broadcast_events (message : string)
      (l : list (shared_ptr TaskObserver)) :
  stdout (broadcast_events message l)
  = map (fun o => delivery_line o message) (sinks_before_null l).
Proof.
  unfold broadcast_events.
  induction (sinks_before_null l) as [|o os IH]; cbn [flat_map map];
    [reflexivity|].
  now rewrite stdout_app, stdout_update_events, IH.
Qed.

Lemma last_cons_default {A} (l : list A) (x d : A) :
  last (x :: l) d = last l x.
Proof.
  revert x d. induction l as [|y l IH]; intros x d; [reflexivity|].
  change (last (x :: y :: l) d) with (last (y :: l) d).
  now rewrite (IH y d), (IH y x).
Qed.

(** X5: what a transition prints.  [changeState(X)] writes the entry text of
    [X] and then, for each sink in front of the first null one, in
    registration order, the one line of that sink: the channel, the
    recipient and the text.  A bare [notify(message)] writes the sinks' lines
    only. *)
Theorem X5_lines_of_a_transition :
  forall (t : Task) (c : TaskContext) (X : TaskState) (message : string),
    stdout (trace (Task_changeState (Some X) t))
    = entry_action_text X
      :: map (fun o => delivery_line o (entry_action_text X))
             (sinks_before_null (registry t))
    /\ stdout (trace (TaskContext_notify message c))
       = map (fun o => delivery_line o message)
             (sinks_before_null (taskObservers c)).
Proof.
  intros t c X message.
  rewrite Task_changeState_run, TaskContext_notify_run. cbn [trace].
  cbn [entry_events stdout]. rewrite !stdout_broadcast_events.
  split; reflexivity.
Qed.

(** X6: a history of transitions.  On a Task whose registry holds the sinks
    [os], the calls [changeState(s)] for the states of a list, one after the
    other, all return; every sink is handed every state's text, state by
    state and within a state in registration order; [1 + |os|] lines are
    written per transition; the Task ends in the last state of the list (in
    the state it had, for the empty list) with its registry as before. *)
Theorem X6_history_of_transitions :
  forall (t : Task) (os : list TaskObserver) (states : list TaskState),
    registry t = map Some os ->
    let r := for_each states (fun s => Task_changeState (Some s)) t in
    value r = Some tt
    /\ notifications (trace r)
       = flat_map (fun s => map (fun o => (o, entry_action_text s)) os) states
    /\ List.length (stdout (trace r))
       = (List.length states * (1 + List.length os))%nat
    /\ state_of (store r) = final_state states (state_of t)
    /\ registry (store r) = registry t.
Proof.
  intros t os states. revert t.
  induction states as [|s states IH]; intros t Hreg; cbv zeta.
  - cbn. repeat split; reflexivity.
  - cbn [for_each].
    assert (E : Task_changeState (Some s) t
                = mkOutcome
                    (set_taskContext (mkTaskContext (Some s) (registry t)) t)
                    (entry_events (Some s) (map Some os))
                    (Some tt)).
    { rewrite Task_changeState_run. unfold registry in *. rewrite Hreg.
      cbn [entry_value]. unfold broadcast_value.
      now rewrite has_null_valid. }
    rewrite (bind_run _ _ _ tt (f_equal value E)), E.
    cbn [store trace value].
    set (t' := set_taskContext (mkTaskContext (Some s) (registry t)) t).
    assert (Hreg' : registry t' = map Some os) by exact Hreg.
    destruct (IH t' Hreg') as (Hv & Hn & Hl & Hs & Hr).
    split; [exact Hv|]. split.
    { rewrite notifications_app, Hn. cbn [entry_events notifications flat_map].
      now rewrite notifications_broadcast_events, sinks_before_null_valid. }
    split.
    { rewrite stdout_app, List.length_app, Hl.
      cbn [entry_events stdout List.length].
      rewrite stdout_broadcast_events, sinks_before_null_valid,
        List.length_map.
      lia. }
    split.
    { rewrite Hs. unfold final_state. cbn [map].
      now rewrite last_cons_default. }
    rewrite Hr. reflexivity.
Qed.

(** X6 on the two transitions of the source's [main]. *)
Lemma X6_history_witness :
  notifications
    (trace (for_each [InProgressState; CompletedState]
                     (fun s => Task_changeState (Some s)) two_sink_task))
  = flat_map
      (fun s => map (fun o => (o, entry_action_text s))
                    [EmailTaskObserver "jhon.d@gmail.com";
                     SMSTaskObserver "+1-(234)-(435)-1122"])
      [InProgressState; CompletedState].
Proof.
  exact (proj1 (proj2
    (X6_history_of_transitions two_sink_task
       [EmailTaskObserver "jhon.d@gmail.com";
        SMSTaskObserver "+1-(234)-(435)-1122"]
       [InProgressState; CompletedState] eq_refl))).
Defined.

Lemma BuilderCalls_store (calls : list BuilderCall) (i : Z)
      (ti d : string) (sd ed : Z) (p : TaskPriority)
      (st : unique_ptr TaskState) (obs : list (shared_ptr TaskObserver)) :
  store (for_each calls BuilderCall_run
           (mkTaskManager (mkTask i ti d sd ed p (mkTaskContext st obs))))
  = mkTaskManager
      (mkTask i ti (last_description calls d) (last_startDate calls sd)
              (last_endDate calls ed) (last_priority calls p)
              (mkTaskContext st (obs ++ flat_map BuilderCall_registers calls))).
Proof.
  revert d sd ed p obs.
  induction calls as [|call calls IH]; intros d sd ed p obs.
  - cbn. now rewrite app_nil_r.
  - cbn [for_each].
    rewrite (bind_run _ _ _ tt (proj1 (proj2 (BuilderCall_run_inv call _)))).
    cbn [store].
    assert (E : store (BuilderCall_run call
                  (mkTaskManager
                     (mkTask i ti d sd ed p (mkTaskContext st obs))))
                = mkTaskManager
                    (mkTask i ti (last_description [call] d)
                       (last_startDate [call] sd) (last_endDate [call] ed)
                       (last_priority [call] p)
                       (mkTaskContext st
                          (obs ++ BuilderCall_registers call))))
      by (destruct call; cbn; rewrite ?app_nil_r; reflexivity).
    rewrite E, IH. cbn [flat_map]. rewrite <- app_assoc.
    destruct call; reflexivity.
Qed.

(** X7: what the builder builds.  After any sequence of builder calls,
    [build()] returns the Task with the constructor's id and title, the
    description, priority and dates of the last call that set each (else the
    empty description, the constructor's priority, the construction time and
    two days after it), the state Created and the sinks in registration
    order.  Setting the start date does not move the end date. *)
Theorem X7_builder_last_write_wins :
  forall (moved_from_string : string -> string) (now id : Z)
         (title : string) (priority : TaskPriority)
         (calls : list BuilderCall),
    value (built moved_from_string now id title priority calls)
    = Some (mkTask id title
                   (last_description calls "")
                   (last_startDate calls now)
                   (last_endDate calls (now + 172800))
                   (last_priority calls priority)
                   (mkTaskContext (Some CreateState)
                                  (flat_map BuilderCall_registers calls))).
Proof.
  intros mfs now id title priority calls.
  rewrite built_run. cbn [value]. f_equal.
  unfold builder_after, TaskManager_ctor. rewrite Task_ctor_run.
  cbn [store trace value].
  rewrite (and_then_run (mkOutcome _ _ (Some tt)) _ tt eq_refl).
  cbn [store]. rewrite BuilderCalls_store. reflexivity.
Qed.

(** X8: the builder adds nothing of its own.  A builder call followed by
    [build()] returns the Task that [build()] followed by the matching call
    on the Task gives (registration for registration, setter for setter). *)
Theorem X8_builder_call_is_the_task_call :
  forall (utc_offset : Z -> Z) (moved_from_string : string -> string)
         (call : BuilderCall) (b : TaskManager),
    value ((BuilderCall_run call ;; TaskManager_build moved_from_string) b)
    = option_map
        (fun t => store (TaskCall_run utc_offset (BuilderCall_on_Task call) t))
        (value (TaskManager_build moved_from_string b))
    /\ trace ((BuilderCall_run call ;;
               TaskManager_build moved_from_string) b) = [].
Proof.
  intros tz mfs call b.
  destruct call; split; reflexivity.
Qed.

Lemma bind_modify {S B} (f : S -> S) (k : unit -> Exec S B) (s : S) :
  bind (modify f) k s = k tt (f s).
Proof. unfold bind, modify. cbn. destruct (k tt (f s)); reflexivity. Qed.

Lemma bind_outcome {S A B} (m : Exec S A) (k : A -> Exec S B) (s s' : S)
      (tr : list Event) (a : A) :
  m s = mkOutcome s' tr (Some a) ->
  bind m k s
  = mkOutcome (store (k a s')) (tr ++ trace (k a s')) (value (k a s')).
Proof. intros E. unfold bind. rewrite E. reflexivity. Qed.

Lemma stdout_map_Stdout (lines : list string) :
  stdout (map Stdout lines) = lines.
Proof. induction lines as [|l ls IH]; cbn; [|rewrite IH]; reflexivity. Qed.

(** X9: [print] shows what was set.  On a Task without a null sink whose
    dates fall in local years 1000 to 9999, setting the title, the
    description and the priority, changing the state and printing returns;
    after the lines of the transition come the six lines of [print], with the
    new title, the new description, the label of the new priority, the label
    of the new state, and the id and dates the Task had. *)
Theorem X9_print_shows_what_was_set :
  forall (utc_offset : Z -> Z) (t : Task) (title desc : string)
         (priority : TaskPriority) (S : TaskState),
    has_null (registry t) = false ->
    four_digit_year utc_offset (startDate t) = true ->
    four_digit_year utc_offset (endDate t) = true ->
    let r := (Task_setTitle title ;;
              Task_setDescription desc ;;
              Task_setTaskPriority priority ;;
              Task_changeState (Some S) ;;
              Task_print utc_offset) t in
    value r = Some tt
    /\ exists s e,
         rendered_dates utc_offset t = Some (s, e)
         /\ stdout (trace r)
            = List.app
                (entry_action_text S
                 :: map (fun o => delivery_line o (entry_action_text S))
                        (sinks_before_null (registry t)))
                [ "Task Details";
                    "Id: " ++ dec (Id t) ++ ", Priority: "
                    ++ (if priority =? HIGH then "High"
                        else if priority =? MEDIUM then "Medium"
                        else if priority =? LOW then "Low"
                        else "Invalid");
                    "Title: " ++ title;
                    "Description: " ++ desc;
                    "Start Date: " ++ s ++ ", End Date: " ++ e;
                    "Task Status: " ++ TaskState_getCurrentState S ].
Proof.
  intros tz t title desc priority S Hnull Hs He r.
  destruct (four_digit_year_renders _ _ Hs) as (sd & s & Ls & Fs & _).
  destruct (four_digit_year_renders _ _ He) as (ed & e & Le & Fe & _).
  assert (R : rendered_dates tz t = Some (s, e)).
  { unfold rendered_dates. now rewrite Ls, Le, Fs, Fe. }
  subst r. unfold Task_setTitle, Task_setDescription, Task_setTaskPriority.
  rewrite !bind_modify.
  set (t1 := set_taskPriority priority
               (set_taskDescription desc (set_taskTitle title t))).
  assert (C : Task_changeState (Some S) t1
              = mkOutcome
                  (set_taskContext (mkTaskContext (Some S) (registry t)) t1)
                  (entry_events (Some S) (registry t))
                  (Some tt)).
  { rewrite Task_changeState_run. cbn [entry_value]. unfold broadcast_value.
    change (taskObservers (taskContext t1)) with (registry t).
    now rewrite Hnull. }
  rewrite (bind_outcome _ _ _ _ _ _ C).
  set (t2 := set_taskContext (mkTaskContext (Some S) (registry t)) t1).
  rewrite Task_print_run.
  change (rendered_dates tz t2) with (rendered_dates tz t). rewrite R.
  cbn [store trace value].
  split; [reflexivity|].
  exists s, e. split; [reflexivity|].
  rewrite stdout_app, stdout_map_Stdout.
  cbn [entry_events stdout]. rewrite stdout_broadcast_events.
  reflexivity.
Qed.

(** X9 on a Task of the source's [main], in UTC. *)
Lemma X9_print_witness :
  value ((Task_setTitle "Release" ;;
          Task_setDescription "Ship it" ;;
          Task_setTaskPriority HIGH ;;
          Task_changeState (Some CompletedState) ;;
          Task_print utc) two_sink_task)
  = Some tt.
Proof.
  exact (proj1 (X9_print_shows_what_was_set utc two_sink_task
                  "Release" "Ship it" HIGH CompletedState
                  eq_refl eq_refl eq_refl)).
Defined.

Lemma has_null_app {A} (l a : list (option A)) :
  has_null l = true -> has_null (l ++ a) = true.
Proof.
  unfold has_null. rewrite existsb_app. intros ->. reflexivity.
Qed.

Lemma sinks_before_null_app (l a : list (shared_ptr TaskObserver)) :
  has_null l = true ->
  sinks_before_null (l ++ a) = sinks_before_null l.
Proof.
  induction l as [|[o|] l IH]; cbn; intros H.
  - discriminate H.
  - now rewrite IH.
  - reflexivity.
Qed.

(** An event of a loop satisfies what the events of every iteration
    started under the invariant satisfy. *)
Lemma for_each_trace_inv {S A} (body : A -> Exec S unit)
      (I : S -> Prop) (Q : Event -> Prop) :
  (forall x s, I s -> I (store (body x s))) ->
  (forall x s e, I s -> In e (trace (body x s)) -> Q e) ->
  forall l s e, I s -> In e (trace (for_each l body s)) -> Q e.
Proof.
  intros Hinv HQ l. induction l as [|x l IH]; intros s e Hs He.
  - destruct He.
  - cbn [for_each] in He. unfold bind in He.
    destruct (value (body x s)) as [[]|]; cbn [trace] in He.
    + apply in_app_or in He. destruct He as [He|He].
      * exact (HQ x s e Hs He).
      * exact (IH _ e (Hinv x s Hs) He).
    + exact (HQ x s e Hs He).
Qed.

(** A loop does not return when it holds an iteration that cannot return
    under the invariant. *)
Lemma for_each_stops {S A} (body : A -> Exec S unit)
      (I : S -> Prop) (stuck : A -> Prop) :
  (forall x s, I s -> I (store (body x s))) ->
  (forall x s, I s -> stuck x -> value (body x s) = None) ->
  forall l s, I s -> (exists x, In x l /\ stuck x) ->
              value (for_each l body s) = None.
Proof.
  intros Hinv Hstuck l. induction l as [|x l IH]; intros s Hs (y & Hy & Sy).
  - destruct Hy.
  - cbn [for_each]. unfold bind.
    destruct (value (body x s)) as [[]|] eqn:V; cbn [value]; [|reflexivity].
    destruct Hy as [->|Hy].
    + rewrite (Hstuck y s Hs Sy) in V. discriminate V.
    + apply IH; [apply Hinv, Hs | exists y; split; assumption].
Qed.

(** X10: a null sink stays in the way.  Once the registry of a Task holds a
    null sink, then over every sequence of calls, whatever is registered
    meanwhile, only the sinks in front of the first null one are ever
    notified, and no sequence that holds a [changeState] to a state
    returns. *)
Theorem X10_null_sink_blocks_what_is_behind_it :
  forall (utc_offset : Z -> Z) (t : Task) (calls : list TaskCall),
    has_null (registry t) = true ->
    let r := for_each calls (TaskCall_run utc_offset) t in
    (forall o message,
        In (o, message) (notifications (trace r)) ->
        In o (sinks_before_null (registry t)))
    /\ (forall s, In (CallChangeState (Some s)) calls -> value r = None).
Proof.
  intros tz t calls Hnull r. subst r.
  set (I := fun t' : Task =>
              exists added, registry t' = (registry t ++ added)%list).
  assert (Hinv : forall call t', I t' ->
                                 I (store (TaskCall_run tz call t'))).
  { intros call t' [added E].
    exists (added ++ TaskCall_registers call)%list.
    rewrite (proj1 (TaskCall_run_inv tz call t')), E.
    now rewrite app_assoc. }
  assert (I0 : I t) by (exists []; now rewrite app_nil_r).
  split.
  - intros o message Hin. apply In_notifications in Hin.
    apply (for_each_trace_inv (TaskCall_run tz) I
             (fun e => forall o' m', e = Notified o' m' ->
                                     In o' (sinks_before_null (registry t))))
      with (l := calls) (s := t) (e := Notified o message) (o' := o)
           (m' := message);
      [exact Hinv | | exact I0 | exact Hin | reflexivity].
    intros call t' e [added E] He o' m' ->.
    apply In_notifications in He.
    destruct (proj2 (proj2 (TaskCall_run_inv tz call t')) o' m' He)
      as (s & -> & _).
    cbn [TaskCall_run] in He. rewrite Task_changeState_run in He.
    cbn [trace entry_events notifications] in He.
    rewrite notifications_broadcast_events in He.
    apply in_map_iff in He. destruct He as (o'' & Eo & Ho).
    injection Eo as ->.
    unfold registry in E. rewrite E in Ho.
    now rewrite sinks_before_null_app in Ho.
  - intros s Hin.
    apply (for_each_stops (TaskCall_run tz) I
             (fun call => exists s', call = CallChangeState (Some s')));
      [exact Hinv | | exact I0 | exists (CallChangeState (Some s)); eauto].
    intros call t' [added E] (s' & ->).
    cbn [TaskCall_run]. rewrite Task_changeState_run.
    cbn [value entry_value]. unfold broadcast_value.
    unfold registry in E. rewrite E.
    now rewrite has_null_app.
Qed.

(** X10 on a Task of the source's [main] after the null sink is registered:
    a third sink registered behind it is never notified. *)
Lemma X10_null_sink_witness :
  value (for_each
           [CallAddTaskObserver (Some (SMSTaskObserver "+91-(982)-(432)-3878"));
            CallChangeState (Some InProgressState)]
           (TaskCall_run utc)
           (store (Task_addTaskObserver None two_sink_task)))
  = None.
Proof.
  exact (proj2 (X10_null_sink_blocks_what_is_behind_it utc
                  (store (Task_addTaskObserver None two_sink_task))
                  [CallAddTaskObserver
                     (Some (SMSTaskObserver "+91-(982)-(432)-3878"));
                   CallChangeState (Some InProgressState)]
                  eq_refl)
               InProgressState (or_intror (or_introl eq_refl))).
Defined.

Lemma main_built_run (mfs : string -> string) (now : Z) :
  exists husk,
    main_built mfs now
    = mkOutcome husk [Stdout "Task has been created..."]
        (Some (mkTask 1001 "C++ Dev Task"
                 "This is C++ Dev Task for the LinkedIn"
                 now (now + 172800) LOW
                 (mkTaskContext (Some CreateState) (map Some main_sinks)))).
Proof. eexists. reflexivity. Qed.

(** X11: the program.  Whenever the clock reads a time whose local year, and
    that of the time two days later, lies in 1000 to 9999, [main] runs
    through, whatever the time zone: it prints the Created text, the Task
    with priority Low, then with priority High, both times in state Created
    and with the same two dates, and then the InProgress and the Completed
    transitions, each delivered to the four sinks in registration order.
    Nothing is delivered for Created. *)
Theorem X11_main_runs_through :
  forall (utc_offset : Z -> Z) (moved_from_string : string -> string)
         (now : Z),
    four_digit_year utc_offset now = true ->
    four_digit_year utc_offset (now + 172800) = true ->
    exists s e,
      is_YYYY_MM_DD s = true
      /\ is_YYYY_MM_DD e = true
      /\ stdout (main utc_offset moved_from_string now)
         = List.concat
             [ ["Task has been created..."];
               main_details "Low" s e; [""];
               main_details "High" s e; [""];
               entry_action_text InProgressState
               :: map (fun o => delivery_line o
                                  (entry_action_text InProgressState))
                      main_sinks;
               [""];
               entry_action_text CompletedState
               :: map (fun o => delivery_line o
                                  (entry_action_text CompletedState))
                      main_sinks ]
      /\ notifications (main utc_offset moved_from_string now)
         = List.app
             (map (fun o => (o, entry_action_text InProgressState))
                  main_sinks)
             (map (fun o => (o, entry_action_text CompletedState))
                  main_sinks).
Proof.
  intros tz mfs now Hs He.
  destruct (four_digit_year_renders _ _ Hs) as (sd & s & Ls & Fs & Is).
  destruct (four_digit_year_renders _ _ He) as (ed & e & Le & Fe & Ie).
  exists s, e. split; [exact Is|]. split; [exact Ie|].
  unfold main. destruct (main_built_run mfs now) as (husk & ->).
  cbn [trace value].
  set (t1 := mkTask 1001 _ _ now (now + 172800) LOW _).
  assert (R : forall p, rendered_dates tz (set_taskPriority p t1)
                        = Some (s, e)).
  { intros p. unfold rendered_dates. cbn [startDate endDate set_taskPriority
      t1]. now rewrite Ls, Le, Fs, Fe. }
  assert (P1 : Task_print tz t1
               = mkOutcome t1 (map Stdout (main_details "Low" s e))
                           (Some tt)).
  { rewrite Task_print_run.
    change (rendered_dates tz t1)
      with (rendered_dates tz (set_taskPriority LOW t1)).
    rewrite R. reflexivity. }
  assert (P2 : Task_print tz (set_taskPriority HIGH t1)
               = mkOutcome (set_taskPriority HIGH t1)
                           (map Stdout (main_details "High" s e))
                           (Some tt)).
  { rewrite Task_print_run, R. reflexivity. }
  unfold main_on_t1.
  rewrite (bind_outcome _ _ _ _ _ _ P1), bind_cout.
  unfold Task_setTaskPriority. rewrite bind_modify.
  rewrite (bind_outcome _ _ _ _ _ _ P2), bind_cout.
  assert (C : forall X t,
             registry t = map Some main_sinks ->
             Task_changeState (Some X) t
             = mkOutcome
                 (set_taskContext
                    (mkTaskContext (Some X) (map Some main_sinks)) t)
                 (entry_events (Some X) (map Some main_sinks))
                 (Some tt)).
  { intros X t E. rewrite Task_changeState_run. unfold registry in E.
    rewrite E. reflexivity. }
  rewrite (bind_outcome _ _ _ _ _ _
             (C InProgressState (set_taskPriority HIGH t1) eq_refl)).
  rewrite bind_cout. rewrite C by reflexivity.
  cbn [store trace value after_event].
  split.
  - repeat first [ rewrite stdout_app
                 | rewrite stdout_map_Stdout
                 | rewrite stdout_broadcast_events
                 | progress cbn [stdout entry_events] ].
    rewrite sinks_before_null_valid. reflexivity.
  - repeat first [ rewrite notifications_app
                 | rewrite notifications_map_Stdout
                 | rewrite notifications_broadcast_events
                 | progress cbn [notifications entry_events] ].
    rewrite sinks_before_null_valid. reflexivity.
Qed.

(** X11 at the clock reading of 2023-11-14, in UTC. *)
Lemma X11_main_witness :
  exists s e,
    is_YYYY_MM_DD s = true
    /\ is_YYYY_MM_DD e = true
    /\ stdout (main utc (fun _ => "") 1700000000)
       = List.concat
           [ ["Task has been created..."];
             main_details "Low" s e; [""];
             main_details "High" s e; [""];
             entry_action_text InProgressState
             :: map (fun o => delivery_line o
                                (entry_action_text InProgressState))
                    main_sinks;
             [""];
             entry_action_text CompletedState
             :: map (fun o => delivery_line o
                                (entry_action_text CompletedState))
                    main_sinks ]
    /\ notifications (main utc (fun _ => "") 1700000000)
       = List.app
           (map (fun o => (o, entry_action_text InProgressState))
                main_sinks)
           (map (fun o => (o, entry_action_text CompletedState))
                main_sinks).
Proof.
  exact (X11_main_runs_through utc (fun _ => "") 1700000000
           eq_refl eq_refl).
Defined.

(* ===================================================================== *)
(** ** Properties of the monitoring demo *)
(* ===================================================================== *)

Lemma NS_notify_run (message : string) (m : NotificationSystem.EventManager) :
  NotificationSystem.notify message m
  = mkOutcome m
      (map Stdout
           (map (fun n => NotificationSystem.send_line n message)
                (NotificationSystem.before_null
                   (NotificationSystem.observers m))))
      (if has_null (NotificationSystem.observers m) then None else Some tt).
Proof.
  unfold NotificationSystem.notify. rewrite bind_get.
  generalize (NotificationSystem.observers m) as l.
  induction l as [|[n|] l IH]; [reflexivity| |reflexivity].
  cbn [for_each]. unfold bind at 1.
  assert (E : (n0 <- deref (Some n) ;;
               NotificationSystem.INotification_send n0 message) m
              = mkOutcome m
                  [Stdout (NotificationSystem.send_line n message)]
                  (Some tt)) by (destruct n; reflexivity).
  rewrite E. cbn [value store trace]. rewrite IH. reflexivity.
Qed.

Lemma NS_subscribe_all {A} (f : A -> shared_ptr NotificationSystem.INotification)
      (l : list A) (m : NotificationSystem.EventManager) :
  for_each l (fun k => NotificationSystem.subscribe (f k)) m
  = mkOutcome
      (NotificationSystem.mkEventManager
         (NotificationSystem.observers m ++ map f l))
      [] (Some tt).
Proof.
  revert m. induction l as [|k l IH]; intros m.
  - cbn. rewrite app_nil_r. destruct m. reflexivity.
  - cbn [for_each map].
    unfold NotificationSystem.subscribe at 1. rewrite bind_modify, IH.
    cbn. now rewrite <- app_assoc.
Qed.

Lemma NS_has_null_products (types : list NotificationSystem.NotificationType) :
  has_null (map NotificationSystem.CreateNotification types)
  = negb (forallb (fun k => (k =? NotificationSystem.EMAIL)
                            || (k =? NotificationSystem.SMS)) types).
Proof.
  unfold has_null.
  induction types as [|k types IH]; [reflexivity|].
  cbn [map existsb forallb].
  rewrite IH. unfold NotificationSystem.CreateNotification.
  destruct (k =? NotificationSystem.EMAIL); [reflexivity|].
  destruct (k =? NotificationSystem.SMS); reflexivity.
Qed.

(** X12: the factory and the manager.  [CreateNotification] gives a null
    pointer exactly for a type that is neither [EMAIL] nor [SMS], and
    [subscribe] takes every pointer.  After subscribing what the factory
    makes for a list of types, [notify] writes one line per subscription in
    front of the first null one, in subscription order, each with the
    channel's prefix and the message; it returns exactly when every type of
    the list was [EMAIL] or [SMS], and leaves the manager as it was. *)
Theorem X12_factory_products_are_notified_in_order :
  forall (types : list NotificationSystem.NotificationType)
         (message : string),
    let mgr := NotificationSystem.subscribed types in
    NotificationSystem.observers mgr
    = map NotificationSystem.CreateNotification types
    /\ (forall k, NotificationSystem.CreateNotification k = None
                  <-> (k <> NotificationSystem.EMAIL
                       /\ k <> NotificationSystem.SMS))
    /\ value (NotificationSystem.notify message mgr)
       = (if forallb (fun k => (k =? NotificationSystem.EMAIL)
                               || (k =? NotificationSystem.SMS)) types
          then Some tt else None)
    /\ stdout (trace (NotificationSystem.notify message mgr))
       = map (fun n => NotificationSystem.send_line n message)
             (NotificationSystem.before_null
                (map NotificationSystem.CreateNotification types))
    /\ store (NotificationSystem.notify message mgr) = mgr.
Proof.
  intros types message mgr.
  assert (O : NotificationSystem.observers mgr
              = map NotificationSystem.CreateNotification types).
  { subst mgr. unfold NotificationSystem.subscribed.
    rewrite NS_subscribe_all. reflexivity. }
  split; [exact O|]. split.
  { intros k. unfold NotificationSystem.CreateNotification,
      NotificationSystem.EMAIL, NotificationSystem.SMS.
    destruct (Z.eqb_spec k 0); [split; [discriminate | lia]|].
    destruct (Z.eqb_spec k 1); [split; [discriminate | lia]|].
    split; [split; assumption | reflexivity]. }
  rewrite NS_notify_run, O, NS_has_null_products.
  cbn [value trace store]. rewrite stdout_map_Stdout.
  destruct (forallb (fun k => (k =? NotificationSystem.EMAIL)
                              || (k =? NotificationSystem.SMS)) types);
    repeat split; reflexivity.
Qed.

Lemma NS_monitor_iteration_run (ms : NotificationSystem.MonitoringSystem)
      (mgr : NotificationSystem.EventManager) (r : Z * Z) :
  NotificationSystem.eventManager ms = Some mgr ->
  has_null (NotificationSystem.observers mgr) = false ->
  NotificationSystem.monitor_iteration (fst r) (snd r) ms
  = mkOutcome ms
      (map Stdout
         (flat_map
            (fun alert =>
               map (fun n => NotificationSystem.send_line n alert)
                   (NotificationSystem.before_null
                      (NotificationSystem.observers mgr)))
            (NotificationSystem.alerts_of ms r)))
      (Some tt).
Proof.
  intros Em Hn. destruct ms as [em ct mt]. cbn in Em. subst em.
  unfold NotificationSystem.monitor_iteration. rewrite bind_get. cbv zeta.
  unfold NotificationSystem.alerts_of, NotificationSystem.cpu_alert,
    NotificationSystem.mem_alert.
  cbn [NotificationSystem.cpuThreshold NotificationSystem.memThreshold].
  assert (N : forall message,
             NotificationSystem.on_eventManager
               (NotificationSystem.notify message)
               (NotificationSystem.mkMonitoringSystem (Some mgr) ct mt)
             = mkOutcome
                 (NotificationSystem.mkMonitoringSystem (Some mgr) ct mt)
                 (map Stdout
                    (map (fun n => NotificationSystem.send_line n message)
                         (NotificationSystem.before_null
                            (NotificationSystem.observers mgr))))
                 (Some tt)).
  { intros message. unfold NotificationSystem.on_eventManager.
    cbn [NotificationSystem.eventManager NotificationSystem.cpuThreshold
         NotificationSystem.memThreshold].
    rewrite NS_notify_run, Hn. reflexivity. }
  destruct (NotificationSystem.getCPUUsage (fst r) >? ct);
    destruct (NotificationSystem.getMemoryUsage (snd r) >? mt);
    cbn [app flat_map];
    repeat first [ rewrite (bind_outcome _ _ _ _ _ _ (N _))
                 | rewrite bind_ret
                 | rewrite N ];
    cbn [store trace value]; rewrite ?app_nil_r, ?map_app; reflexivity.
Qed.

(** X13: the alerts of a run.  With a manager whose subscribers are all
    there, any number of iterations of [monitor] return and leave the
    monitoring system as it was; each iteration raises the CPU alert when the
    CPU usage is above its threshold and then the memory alert when the
    memory usage is above its own, each alert going to every subscriber in
    subscription order before the next alert is raised. *)
Theorem X13_alerts_of_a_run :
  forall (ms : NotificationSystem.MonitoringSystem)
         (mgr : NotificationSystem.EventManager) (rands : list (Z * Z)),
    NotificationSystem.eventManager ms = Some mgr ->
    has_null (NotificationSystem.observers mgr) = false ->
    NotificationSystem.monitor rands ms
    = mkOutcome ms
        (map Stdout
           (flat_map
              (fun r =>
                 flat_map
                   (fun alert =>
                      map (fun n => NotificationSystem.send_line n alert)
                          (NotificationSystem.before_null
                             (NotificationSystem.observers mgr)))
                   (NotificationSystem.alerts_of ms r))
              rands))
        (Some tt).
Proof.
  intros ms mgr rands Em Hn. unfold NotificationSystem.monitor.
  induction rands as [|r rands IH]; [reflexivity|].
  cbn [for_each flat_map].
  rewrite (bind_outcome _ _ _ _ _ _
             (NS_monitor_iteration_run ms mgr r Em Hn)).
  rewrite IH. cbn [store trace value]. now rewrite map_app.
Qed.

(** The monitoring system of [main]: both factory products subscribed, the
    thresholds 75 and 80. *)
Lemma X13_alerts_witness :
  NotificationSystem.monitor [(41, 18467); (6380, 26500)]
    (NotificationSystem.mkMonitoringSystem
       (Some (NotificationSystem.subscribed
                [NotificationSystem.EMAIL; NotificationSystem.SMS]))
       75 80)
  = mkOutcome
      (NotificationSystem.mkMonitoringSystem
         (Some (NotificationSystem.subscribed
                  [NotificationSystem.EMAIL; NotificationSystem.SMS]))
         75 80)
      (map Stdout
         [ "Email notification! CPU Usage Alert! CPU Usage: 80%";
           "SMS notification! CPU Usage Alert! CPU Usage: 80%" ])
      (Some tt).
Proof.
  exact (X13_alerts_of_a_run
           (NotificationSystem.mkMonitoringSystem
              (Some (NotificationSystem.subscribed
                       [NotificationSystem.EMAIL; NotificationSystem.SMS]))
              75 80)
           (NotificationSystem.subscribed
              [NotificationSystem.EMAIL; NotificationSystem.SMS])
           [(41, 18467); (6380, 26500)] eq_refl eq_refl).
Defined.

Lemma NS_usage_below_100 (rand_value : Z) :
  0 <= rand_value ->
  0 <= NotificationSystem.getCPUUsage rand_value <= 99
  /\ 0 <= NotificationSystem.getMemoryUsage rand_value <= 99.
Proof.
  intros H. unfold NotificationSystem.getCPUUsage,
    NotificationSystem.getMemoryUsage.
  rewrite Z.rem_mod_nonneg by lia.
  pose proof (Z.mod_pos_bound rand_value 100 ltac:(lia)). lia.
Qed.

(** X14: thresholds of 99 or more silence the monitor.  The usages are
    [rand() % 100], at most 99, so with both thresholds at 99 or above no
    iteration raises an alert: any number of iterations return without a
    line and without touching the event manager, which may even be null. *)
Theorem X14_high_thresholds_never_alert :
  forall (ms : NotificationSystem.MonitoringSystem) (rands : list (Z * Z)),
    Forall (fun r => 0 <= fst r /\ 0 <= snd r) rands ->
    99 <= NotificationSystem.cpuThreshold ms ->
    99 <= NotificationSystem.memThreshold ms ->
    NotificationSystem.monitor rands ms = mkOutcome ms [] (Some tt).
Proof.
  intros ms rands Hr Hc Hm. unfold NotificationSystem.monitor.
  induction Hr as [|r rands [H1 H2] _ IH]; [reflexivity|].
  cbn [for_each].
  assert (E : NotificationSystem.monitor_iteration (fst r) (snd r) ms
              = mkOutcome ms [] (Some tt)).
  { unfold NotificationSystem.monitor_iteration. rewrite bind_get. cbv zeta.
    destruct (NS_usage_below_100 (fst r) H1) as (B1 & _).
    destruct (NS_usage_below_100 (snd r) H2) as (_ & B2).
    destruct (Z.gtb_spec (NotificationSystem.getCPUUsage (fst r))
                (NotificationSystem.cpuThreshold ms)); [lia|].
    destruct (Z.gtb_spec (NotificationSystem.getMemoryUsage (snd r))
                (NotificationSystem.memThreshold ms)); [lia|].
    reflexivity. }
  rewrite (bind_outcome _ _ _ _ _ _ E), IH. reflexivity.
Qed.

(** X14 with a null manager and thresholds 99 and 100. *)
Lemma X14_high_thresholds_witness :
  NotificationSystem.monitor [(41, 18467); (6399, 26500)]
    (NotificationSystem.mkMonitoringSystem None 99 100)
  = mkOutcome (NotificationSystem.mkMonitoringSystem None 99 100) []
              (Some tt).
Proof.
  refine (X14_high_thresholds_never_alert
            (NotificationSystem.mkMonitoringSystem None 99 100)
            [(41, 18467); (6399, 26500)] _ _ _).
  - repeat constructor; cbn; lia.
  - cbn; lia.
  - cbn; lia.
Defined.

(** X15: a monitoring system without a manager.  With a null
    [eventManager], an iteration returns exactly when neither usage is above
    its threshold; the first alert dereferences the null pointer, and nothing
    is written either way. *)
Theorem X15_null_manager_fails_at_the_first_alert :
  forall (ms : NotificationSystem.MonitoringSystem) (cpu_rand mem_rand : Z),
    NotificationSystem.eventManager ms = None ->
    let r := NotificationSystem.monitor_iteration cpu_rand mem_rand ms in
    trace r = []
    /\ store r = ms
    /\ value r
       = (if NotificationSystem.cpu_alert ms cpu_rand
             || NotificationSystem.mem_alert ms mem_rand
          then None else Some tt).
Proof.
  intros ms c m Em r. subst r.
  unfold NotificationSystem.monitor_iteration. rewrite bind_get. cbv zeta.
  unfold NotificationSystem.cpu_alert, NotificationSystem.mem_alert.
  assert (N : forall message,
             NotificationSystem.on_eventManager
               (NotificationSystem.notify message) ms
             = mkOutcome ms [] None).
  { intros message. unfold NotificationSystem.on_eventManager.
    now rewrite Em. }
  destruct (NotificationSystem.getCPUUsage c
            >? NotificationSystem.cpuThreshold ms);
    destruct (NotificationSystem.getMemoryUsage m
              >? NotificationSystem.memThreshold ms);
    cbn [orb];
    first [ rewrite (bind_stop _ _ _ (f_equal value (N _))), N
          | rewrite bind_ret ];
    rewrite ?N; repeat split; reflexivity.
Qed.

(** X15 with the thresholds of [main] and a CPU usage of 80. *)
Lemma X15_null_manager_witness :
  value (NotificationSystem.monitor_iteration 6380 26500
           (NotificationSystem.mkMonitoringSystem None 75 80))
  = None.
Proof.
  exact (proj2 (proj2
    (X15_null_manager_fails_at_the_first_alert
       (NotificationSystem.mkMonitoringSystem None 75 80) 6380 26500
       eq_refl))).
Defined.

(* ===================================================================== *)
(** ** Properties of the item decorators *)
(* ===================================================================== *)

Lemma string_app_nil_r (a : string) : a ++ "" = a.
Proof. induction a as [|ch a IH]; cbn; [|rewrite IH]; reflexivity. Qed.

Lemma option_map_compose {A B C} (f : A -> B) (g : B -> C) (o : option A) :
  option_map g (option_map f o) = option_map (fun a => g (f a)) o.
Proof. destruct o; reflexivity. Qed.

Lemma option_map_ext {A B} (f g : A -> B) (o : option A) :
  (forall a, f a = g a) -> option_map f o = option_map g o.
Proof. intros E. destruct o; cbn; [rewrite E|]; reflexivity. Qed.

Lemma option_map_id {A} (o : option A) : option_map (fun a => a) o = o.
Proof. destruct o; reflexivity. Qed.

(** X16: decorations compose.  However an item is decorated, its id and its
    title are those of the item; its price is the item's price with the
    surcharge of each decoration added in the order of decoration (2.0 for a
    gift wrap, 5.0 for express delivery, no addition for a plain decorator);
    its description is the item's description followed by the line of each
    decoration in that order.  A decorator built over a null pointer has no
    defined getter, and neither has anything decorated further. *)
Theorem X16_decorations_compose :
  forall (double : Type) (fadd : double -> double -> double)
         (two five : double) (to_string : double -> string)
         (ds : list OnlineShoppingCart.Decoration)
         (item : OnlineShoppingCart.IItem double),
    let decorated := OnlineShoppingCart.decorate_all double ds item in
    OnlineShoppingCart.getId double decorated
    = OnlineShoppingCart.getId double item
    /\ OnlineShoppingCart.getTitle double decorated
       = OnlineShoppingCart.getTitle double item
    /\ OnlineShoppingCart.getPrice double fadd two five decorated
       = option_map
           (fun p => fold_left
                       (OnlineShoppingCart.priced double fadd two five) ds p)
           (OnlineShoppingCart.getPrice double fadd two five item)
    /\ OnlineShoppingCart.getDescription double to_string decorated
       = option_map
           (fun s => s ++ OnlineShoppingCart.all_described ds)
           (OnlineShoppingCart.getDescription double to_string item)
    /\ (forall d,
          let broken :=
            OnlineShoppingCart.decorate_all double ds
              (OnlineShoppingCart.decorate double d None) in
          OnlineShoppingCart.getId double broken = None
          /\ OnlineShoppingCart.getTitle double broken = None
          /\ OnlineShoppingCart.getPrice double fadd two five broken = None
          /\ OnlineShoppingCart.getDescription double to_string broken
             = None).
Proof.
  intros double fadd two five to_string ds.
  assert (G : forall item,
             let decorated := OnlineShoppingCart.decorate_all double ds item in
             OnlineShoppingCart.getId double decorated
             = OnlineShoppingCart.getId double item
             /\ OnlineShoppingCart.getTitle double decorated
                = OnlineShoppingCart.getTitle double item
             /\ OnlineShoppingCart.getPrice double fadd two five decorated
                = option_map
                    (fun p => fold_left
                                (OnlineShoppingCart.priced double fadd two five)
                                ds p)
                    (OnlineShoppingCart.getPrice double fadd two five item)
             /\ OnlineShoppingCart.getDescription double to_string decorated
                = option_map
                    (fun s => s ++ OnlineShoppingCart.all_described ds)
                    (OnlineShoppingCart.getDescription double to_string item)).
  { induction ds as [|d ds IH]; intros item; cbv zeta.
    - cbn. rewrite option_map_id.
      rewrite (option_map_ext (fun s => s ++ "") (fun s => s))
        by apply string_app_nil_r.
      rewrite option_map_id. repeat split; reflexivity.
    - cbn [OnlineShoppingCart.decorate_all fold_left
           OnlineShoppingCart.all_described].
      destruct (IH (OnlineShoppingCart.decorate double d (Some item)))
        as (Hi & Ht & Hp & Hd).
      rewrite Hi, Ht, Hp, Hd.
      destruct d; cbn; rewrite ?option_map_compose;
        repeat split; try reflexivity;
        apply option_map_ext; intros a;
        rewrite ?string_app_assoc; reflexivity. }
  intros item decorated. subst decorated.
  destruct (G item) as (Hi & Ht & Hp & Hd).
  repeat (split; [assumption|]).
  intros d broken. subst broken.
  destruct (G (OnlineShoppingCart.decorate double d None))
    as (Hi' & Ht' & Hp' & Hd').
  rewrite Hi', Ht', Hp', Hd'. destruct d; repeat split; reflexivity.
Qed.
